(** * BohemiaServiceMonitor: the status-polling and derived-state pipeline

    A shallow embedding of [src/App.tsx]: the refresh cycle ([fetchData],
    [checkWorkshopWebsite]) as transitions of the component state, and the
    derived-value formatters ([formatTimeAgo], [isRecent], [formatDate],
    [formatLatency], the uptime percentage template) as functions of their
    argument and of what they read from the host (the clock, the locale).

    JavaScript values are modelled as follows.
    - Time values (milliseconds since the epoch) and their differences are
      integers; an integral Number is a [Z], and [NaN] (the time value of an
      invalid [Date]) is [None].
    - The measurements carried by a service record are IEEE-754 binary64
      numbers, [spec_float] at precision 53.
    - What [JSON.parse] and [response.json()] return is a [JSValue]. *)

From Stdlib Require Import ZArith List Bool Lia.
From Stdlib Require Import Strings.String Strings.Ascii.
From Stdlib Require Import Numbers.DecimalString Numbers.DecimalFacts Numbers.DecimalZ.
From Stdlib Require Import Floats.SpecFloat.
Import ListNotations.

Set Warnings "-notation-for-abbreviation".

Open Scope string_scope.
Open Scope Z_scope.

(** ** Numbers of the host language *)

Module JS.

(** An integral Number, or NaN. *)
Definition num : Type := option Z.

Definition NaN : num := None.

(** [a - b] on Numbers: NaN is absorbing. *)
Definition sub (a b : num) : num :=
  match a, b with
  | Some x, Some y => Some (x - y)
  | _, _ => None
  end.

(** [Math.floor(a / d)] for a positive integer literal [d].  On the doubles
    the source computes with, the quotient of an integer below 2^53 by 1000,
    60 or 3600 never rounds across an integer, so flooring it is the integer
    floor division. *)
Definition floor_div (a : num) (d : Z) : num :=
  match a with
  | Some x => Some (x / d)
  | None => None
  end.

(** [a < k]: every comparison with NaN is false. *)
Definition ltb (a : num) (k : Z) : bool :=
  match a with
  | Some x => x <? k
  | None => false
  end.

(** [a === k]. *)
Definition strict_eqb (a : num) (k : Z) : bool :=
  match a with
  | Some x => x =? k
  | None => false
  end.

(** The decimal digits of an integer, as [Number::toString] prints an
    integral Number of magnitude below 10^21. *)
Definition string_of_Z (z : Z) : string :=
  NilZero.string_of_int (Z.to_int z).

(** Template-literal conversion [`${a}`] of a Number. *)
Definition ToString (a : num) : string :=
  match a with
  | Some x => string_of_Z x
  | None => "NaN"
  end.

(** *** Binary64 numbers and [Number.prototype.toFixed] *)

Definition Number : Type := spec_float.

Definition prec : Z := 53.
Definition emax : Z := 1024.

(** The Number of an integer (exact below 2^53). *)
Definition of_Z (z : Z) : Number := binary_normalize prec emax z 0 false.

(** [x / y], correctly rounded to nearest, ties to even. *)
Definition div (x y : Number) : Number := SFdiv prec emax x y.

(** The Number denoted by the decimal literal [m * 10^(-k)]: for [m] below
    2^53 and [k <= 22] both operands are exact, so the rounded quotient is the
    double nearest to the decimal. *)
Definition literal (m : Z) (k : Z) : Number := div (of_Z m) (of_Z (10 ^ k)).

(** The magnitude [m * 2^e] of a finite Number as a fraction [(p, q)],
    [q > 0]. *)
Definition magnitude (m : positive) (e : Z) : Z * Z :=
  if 0 <=? e then (Zpos m * 2 ^ e, 1) else (Zpos m, 2 ^ (- e)).

(** "Let n be an integer for which n / 10^f - x is as close to zero as
    possible.  If there are two such n, pick the larger n." *)
Definition nearest_scaled (pq : Z * Z) (f : nat) : Z :=
  let '(p, q) := pq in
  (2 * p * 10 ^ Z.of_nat f + q) / (2 * q).

Fixpoint zeros (n : nat) : string :=
  match n with
  | O => ""
  | S k => String "0" (zeros k)
  end.

(** Steps 10.b-10.c of [toFixed]: the digits of [n], padded with zeros to at
    least [f + 1] characters, with a point before the last [f] of them. *)
Definition fixed_digits (n : Z) (f : nat) : string :=
  let m := string_of_Z n in
  if Nat.eqb f 0 then m
  else
    let k := String.length m in
    let m := if (k <=? f)%nat then zeros (f + 1 - k) ++ m else m in
    let k := String.length m in
    substring 0 (k - f) m ++ "." ++ substring (k - f) f m.

Section NumberToString.

(** [Number::toString], which [toFixed] falls back on for a Number that is
    not finite or is at least 10^21. *)
Variable Number_toString : Number -> string.

(** [x.toFixed(f)]. *)
Definition toFixed (x : Number) (f : nat) : string :=
  match x with
  | S754_nan | S754_infinity _ => Number_toString x
  | S754_zero _ => fixed_digits 0 f
  | S754_finite s m e =>
      let '(p, q) := magnitude m e in
      if 10 ^ 21 * q <=? p then Number_toString x
      else (if s then "-" else "") ++ fixed_digits (nearest_scaled (p, q) f) f
  end.

End NumberToString.

(** *** Values, property access, completions *)

(** The values [JSON.parse] builds, and [undefined]. *)
#[warnings="-register-all"]
Inductive JSValue : Type :=
| JSUndefined
| JSNull
| JSBool (b : bool)
| JSNumber (n : Number)
| JSString (s : string)
| JSArray (elems : list JSValue)
| JSObject (props : list (string * JSValue)).

(** The exceptions the component can meet; a [fetch] that cannot reach the
    relay rejects with a [TypeError]. *)
Inductive Exception : Type :=
| TypeError
| SyntaxError
| HttpError (status : Z).

(** How an evaluation completes: with a value, or abruptly. *)
Inductive Completion (A : Type) : Type :=
| Normal (a : A)
| Throw (e : Exception).

Arguments Normal {A} a.
Arguments Throw {A} e.

(** The own property [key] of an object given by its properties, [undefined]
    when it has none. *)
Fixpoint own_property (key : string) (props : list (string * JSValue)) : JSValue :=
  match props with
  | [] => JSUndefined
  | (k, v) :: rest => if String.eqb k key then v else own_property key rest
  end.

(** [v.key] for a key that no built-in prototype defines ([name] and
    [contents] are such keys): reading it off [undefined] or [null] throws; a
    primitive or an array has no such property; an object yields its own. *)
Definition get (v : JSValue) (key : string) : Completion JSValue :=
  match v with
  | JSUndefined | JSNull => Throw TypeError
  | JSObject props => Normal (own_property key props)
  | _ => Normal JSUndefined
  end.

(** [names.includes(v)] on an array of strings: SameValueZero. *)
Definition includes (names : list string) (v : JSValue) : bool :=
  match v with
  | JSString s => existsb (String.eqb s) names
  | _ => false
  end.

(** [Array.prototype.filter] with a callback that may throw. *)
Fixpoint Array_filter (callback : JSValue -> Completion bool)
    (elems : list JSValue) : Completion (list JSValue) :=
  match elems with
  | [] => Normal []
  | x :: rest =>
      match callback x with
      | Throw e => Throw e
      | Normal keep =>
          match Array_filter callback rest with
          | Throw e => Throw e
          | Normal kept => Normal (if keep then x :: kept else kept)
          end
      end
  end.

(** [data.filter(callback)]: only an array has a [filter] method. *)
Definition filter (data : JSValue) (callback : JSValue -> Completion bool)
  : Completion (list JSValue) :=
  match data with
  | JSArray elems => Array_filter callback elems
  | _ => Throw TypeError
  end.

(** A [Date] object: its time value, or the invalid date. *)
Inductive Date : Type :=
| TimeValue (t : Z)
| InvalidDate.

Definition getTime (d : Date) : num :=
  match d with
  | TimeValue t => Some t
  | InvalidDate => NaN
  end.

End JS.

(** ** The [UpdatedTimestamp] component *)

Module UpdatedTimestamp.
Import JS.

Section Host.

(** [Date.prototype.toLocaleString()], which depends on the locale and the
    time zone of the browser. *)
Variable toLocaleString : Date -> string.

(** [formatTimeAgo(date)].  [now] is the reading of the clock that
    [new Date()] takes inside the function. *)
Definition formatTimeAgo (now : Z) (date : Date) : string :=
  let seconds := floor_div (sub (Some now) (getTime date)) 1000 in
  if ltb seconds 5 then "Just now"
  else if ltb seconds 60 then ToString seconds ++ " seconds ago"
  else if ltb seconds 3600 then
    let minutes := floor_div seconds 60 in
    ToString minutes ++ " " ++
      (if strict_eqb minutes 1 then "minute" else "minutes") ++ " ago"
  else if ltb seconds 86400 then
    let hours := floor_div seconds 3600 in
    ToString hours ++ " " ++
      (if strict_eqb hours 1 then "hour" else "hours") ++ " ago"
  else toLocaleString date.

(** The buckets of the specification's [relativeTime], for a date [date]
    and [s] whole seconds elapsed since it. *)
Definition of_seconds (date : Date) (s : Z) : string :=
  if s <? 5 then "Just now"
  else if s <? 60 then string_of_Z s ++ " seconds ago"
  else if s <? 3600 then
    string_of_Z (s / 60) ++ (if s / 60 =? 1 then " minute ago" else " minutes ago")
  else if s <? 86400 then
    string_of_Z (s / 3600) ++ (if s / 3600 =? 1 then " hour ago" else " hours ago")
  else toLocaleString date.

End Host.

(** [isRecent]: [(new Date().getTime() - date.getTime()) < 5000]. *)
Definition isRecent (now : Z) (date : Date) : bool :=
  ltb (sub (Some now) (getTime date)) 5000.

End UpdatedTimestamp.


(** ** The [App] component *)

Module App.
Import JS.

(** *** Data *)

(** [interface Service]: the shape the feed's entries are expected to have. *)
Record Service : Type := {
  name : string;
  online : bool;
  online_24_hours : Number;
  online_7_days : Number;
  last_success : string;
  last_error : string;
  latency : Number;
  failures_24_hours : Number
}.

(** A [Service] as the object [JSON.parse] builds for it. *)
Definition toJS (s : Service) : JSValue :=
  JSObject
    [ ("name", JSString (name s));
      ("online", JSBool (online s));
      ("online_24_hours", JSNumber (online_24_hours s));
      ("online_7_days", JSNumber (online_7_days s));
      ("last_success", JSString (last_success s));
      ("last_error", JSString (last_error s));
      ("latency", JSNumber (latency s));
      ("failures_24_hours", JSNumber (failures_24_hours s)) ].

(** [interface ServiceInfo]. *)
Record ServiceInfo : Type := {
  info_name : string;
  url : option string
}.

(** [interface WorkshopStatus]; the latency is a difference of two
    [Date.now()] readings. *)
Record WorkshopStatus : Type := {
  ws_online : bool;
  ws_latency : Z
}.

Definition targetServices : list ServiceInfo :=
  [ {| info_name := "Main Page"; url := Some "https://www.bohemia.net" |};
    {| info_name := "Arma Reforger Game API"; url := None |};
    {| info_name := "Arma Reforger Workshop API";
       url := Some "https://reforger.armaplatform.com/workshop" |} ].

(** The five [useState] cells of the component.  At run time the [services]
    cell holds whatever [filter] returned. *)
Record AppState : Type := {
  services : list JSValue;
  loading : bool;
  error : option string;
  lastUpdate : Date;
  workshopStatus : WorkshopStatus
}.

(** The state a mount at clock reading [t] starts from. *)
Definition initialState (t : Z) : AppState :=
  {| services := [];
     loading := true;
     error := None;
     lastUpdate := TimeValue t;
     workshopStatus := {| ws_online := false; ws_latency := 0 |} |}.

(** *** Effects: state updates and exceptions *)

(** A computation reads and updates the component state and completes
    normally or abruptly; updates made before a throw persist. *)
Definition Eff (A : Type) : Type := AppState -> Completion A * AppState.

Definition ret {A} (a : A) : Eff A := fun st => (Normal a, st).

Definition bind {A B} (m : Eff A) (k : A -> Eff B) : Eff B :=
  fun st =>
    match m st with
    | (Normal a, st') => k a st'
    | (Throw e, st') => (Throw e, st')
    end.

Definition throw {A} (e : Exception) : Eff A := fun st => (Throw e, st).

(** [await p] of a promise that settles as [c], or the evaluation of an
    expression that completes as [c]. *)
Definition complete {A} (c : Completion A) : Eff A := fun st => (c, st).

(** [try { body } catch (error) { handler }]. *)
Definition try_catch (body : Eff unit) (handler : Exception -> Eff unit) : Eff unit :=
  fun st =>
    match body st with
    | (Normal a, st') => (Normal a, st')
    | (Throw e, st') => handler e st'
    end.

(** [... finally { finalizer }] around a block: the finalizer always runs,
    and a block that threw still throws afterwards. *)
Definition finally (block : Eff unit) (finalizer : Eff unit) : Eff unit :=
  fun st =>
    match block st with
    | (Normal a, st') => finalizer st'
    | (Throw e, st') =>
        match finalizer st' with
        | (Normal _, st'') => (Throw e, st'')
        | (Throw e', st'') => (Throw e', st'')
        end
    end.

(** The state an [async] function leaves once it settles. *)
Definition settle (m : Eff unit) (st : AppState) : AppState := snd (m st).

Declare Scope eff_scope.
Delimit Scope eff_scope with eff.
Notation "x <- m ;; k" := (bind m (fun x => k))
  (at level 61, m at next level, right associativity) : eff_scope.
Notation "m ;; k" := (bind m (fun _ => k))
  (at level 61, right associativity) : eff_scope.

Definition setServices (v : list JSValue) : Eff unit := fun st =>
  (Normal tt,
   {| services := v; loading := loading st; error := error st;
      lastUpdate := lastUpdate st; workshopStatus := workshopStatus st |}).

Definition setLoading (v : bool) : Eff unit := fun st =>
  (Normal tt,
   {| services := services st; loading := v; error := error st;
      lastUpdate := lastUpdate st; workshopStatus := workshopStatus st |}).

Definition setError (v : option string) : Eff unit := fun st =>
  (Normal tt,
   {| services := services st; loading := loading st; error := v;
      lastUpdate := lastUpdate st; workshopStatus := workshopStatus st |}).

Definition setLastUpdate (v : Date) : Eff unit := fun st =>
  (Normal tt,
   {| services := services st; loading := loading st; error := error st;
      lastUpdate := v; workshopStatus := workshopStatus st |}).

Definition setWorkshopStatus (v : WorkshopStatus) : Eff unit := fun st =>
  (Normal tt,
   {| services := services st; loading := loading st; error := error st;
      lastUpdate := lastUpdate st; workshopStatus := v |}).

(** *** The relay *)

(** What [fetch] resolves to: the HTTP status and what [response.json()]
    settles to. *)
Record Response : Type := {
  status : Z;
  json : Completion JSValue
}.

(** [response.ok]: the status is in the range 200-299. *)
Definition ok (response : Response) : bool :=
  (200 <=? status response) && (status response <=? 299).

Section Host.

(** The JSON grammar: the value a text denotes, if it is a JSON text. *)
Variable JSON_text : string -> option JSValue.

(** [ToString] of a value that is neither [undefined] nor a string. *)
Variable ToString_value : JSValue -> string.

(** [JSON.parse(v)]: the argument is converted to a string first, and
    [undefined] converts to a text that is not JSON. *)
Definition JSON_parse (v : JSValue) : Completion JSValue :=
  let parse text :=
    match JSON_text text with
    | Some d => Normal d
    | None => Throw SyntaxError
    end in
  match v with
  | JSUndefined => Throw SyntaxError
  | JSString text => parse text
  | _ => parse (ToString_value v)
  end.

(** The filtering expression of [fetchData], for a list of monitored
    services [targets]:
    [data.filter(service => targets.map(s => s.name).includes(service.name))]. *)
Definition filterServices (targets : list ServiceInfo) (data : JSValue)
  : Completion (list JSValue) :=
  filter data (fun service =>
    match get service "name" with
    | Normal service_name =>
        Normal (includes (map (fun s => info_name s) targets) service_name)
    | Throw e => Throw e
    end).

Definition fetch_error_message : string :=
  "Unable to fetch service status. Please try again later.".

(** [fetchData]: [fetched] is what the relay request settles to and [now]
    the clock reading [new Date()] takes on the success path.  The
    [console.error] call of the handler writes to the console only. *)
Definition fetchData (fetched : Completion Response) (now : Z) : Eff unit :=
  (finally
    (try_catch
      (response <- complete fetched ;;
       (if negb (ok response)
        then throw (HttpError (status response))
        else ret tt) ;;
       result <- complete (json response) ;;
       contents <- complete (get result "contents") ;;
       data <- complete (JSON_parse contents) ;;
       filteredServices <- complete (filterServices targetServices data) ;;
       setServices filteredServices ;;
       setLastUpdate (TimeValue now) ;;
       setError None)
      (fun _ => setError (Some fetch_error_message)))
    (setLoading false))%eff.

(** [checkWorkshopWebsite]: [startTime] and [endTime] are the two
    [Date.now()] readings, [fetched] what the relay request settles to. *)
Definition checkWorkshopWebsite (startTime : Z) (fetched : Completion Response)
    (endTime : Z) : Eff unit :=
  (try_catch
    (response <- complete fetched ;;
     setWorkshopStatus
       {| ws_online := ok response; ws_latency := endTime - startTime |})
    (fun _ => setWorkshopStatus {| ws_online := false; ws_latency := 0 |}))%eff.

(** The click handler of the error view's Retry button. *)
Definition retryClick (fetched : Completion Response) (now : Z) : Eff unit :=
  (setLoading true ;; setError None ;; fetchData fetched now)%eff.

(** The click handler of the header's refresh button. *)
Definition refreshClick (fetched : Completion Response) (now : Z) : Eff unit :=
  (setLoading true ;; fetchData fetched now)%eff.

(** *** Formatters *)

(** [new Date(dateString)]: the date a string denotes, [InvalidDate] when it
    denotes none. *)
Variable Date_parse : string -> Date.

(** [Date.prototype.toLocaleString()]. *)
Variable toLocaleString : Date -> string.

(** [Number::toString], see [JS.toFixed]. *)
Variable Number_toString : Number -> string.

(** [formatDate(dateString)]; [now] is the clock reading [new Date()]
    takes inside the function. *)
Definition formatDate (now : Z) (dateString : string) : string :=
  let date := Date_parse dateString in
  let timeAgo := floor_div (sub (Some now) (getTime date)) 1000 in
  if ltb timeAgo 60 then "Just now"
  else if ltb timeAgo 3600 then ToString (floor_div timeAgo 60) ++ "m ago"
  else if ltb timeAgo 86400 then ToString (floor_div timeAgo 3600) ++ "h ago"
  else toLocaleString date.

(** [formatLatency(latency)]. *)
Definition formatLatency (latency : Number) : string :=
  toFixed Number_toString (div latency (of_Z 1000)) 2 ++ "s".

(** The value of the two uptime cells, [`${uptime.toFixed(2)}%`]. *)
Definition percentString (uptime : Number) : string :=
  toFixed Number_toString uptime 2 ++ "%".

(** *** Outcomes of the primary fetch, in terms of what the relay returned *)

(** The ways the [try] block of [fetchData] is left abruptly. *)
Inductive FetchFailure : Completion Response -> Prop :=
| request_rejected e :
    FetchFailure (Throw e)
| non_success_status response :
    ok response = false ->
    FetchFailure (Normal response)
| body_not_json response e :
    ok response = true ->
    json response = Throw e ->
    FetchFailure (Normal response)
| envelope_not_object response result e :
    ok response = true ->
    json response = Normal result ->
    get result "contents" = Throw e ->
    FetchFailure (Normal response)
| contents_missing response result :
    ok response = true ->
    json response = Normal result ->
    get result "contents" = Normal JSUndefined ->
    FetchFailure (Normal response)
| contents_not_json response result contents e :
    ok response = true ->
    json response = Normal result ->
    get result "contents" = Normal contents ->
    JSON_parse contents = Throw e ->
    FetchFailure (Normal response)
| payload_not_filtered response result contents data e :
    ok response = true ->
    json response = Normal result ->
    get result "contents" = Normal contents ->
    JSON_parse contents = Normal data ->
    filterServices targetServices data = Throw e ->
    FetchFailure (Normal response).

(** The [try] block of [fetchData] runs to its end, [filtered] being the
    list it stores. *)
Inductive FetchSuccess : Completion Response -> list JSValue -> Prop :=
| fetch_success response result contents data filtered :
    ok response = true ->
    json response = Normal result ->
    get result "contents" = Normal contents ->
    JSON_parse contents = Normal data ->
    filterServices targetServices data = Normal filtered ->
    FetchSuccess (Normal response) filtered.

(** *** Refresh cycles *)

(** One firing of the interval (or of a click handler): what the relay
    request of [fetchData] settles to, and the clock reading of the cycle. *)
Record Cycle : Type := {
  fetched : Completion Response;
  clock : Z
}.

Definition refresh (c : Cycle) (st : AppState) : AppState :=
  settle (fetchData (fetched c) (clock c)) st.

(** The state after the [fetchData] calls of successive cycles have settled. *)
Definition run (cycles : list Cycle) (st : AppState) : AppState :=
  fold_left (fun st c => refresh c st) cycles st.

End Host.

(** *** Vocabulary of the filter's specification *)

(** [l] is [l'] with some entries left out, the others in their order. *)
Inductive Subsequence {A : Type} : list A -> list A -> Prop :=
| sub_nil : Subsequence [] []
| sub_keep x l l' : Subsequence l l' -> Subsequence (x :: l) (x :: l')
| sub_skip x l l' : Subsequence l l' -> Subsequence l (x :: l').

(** The name set of a list of monitored services. *)
Definition names (targets : list ServiceInfo) : list string :=
  map (fun s => info_name s) targets.


End App.

(** ** Vocabulary of the formatter's specification *)

Module Fixed.
Import JS.

(** The magnitude of [x] is below [bound]; false of NaN and the infinities. *)
Definition magnitude_below (x : Number) (bound : Z) : Prop :=
  match x with
  | S754_zero _ => True
  | S754_finite _ m e => let '(p, q) := magnitude m e in p < bound * q
  | _ => False
  end.

(** [100 * |x|] as a fraction. *)
Definition hundredfold (x : Number) : Z * Z :=
  match x with
  | S754_finite _ m e => let '(p, q) := magnitude m e in (100 * p, q)
  | _ => (0, 1)
  end.

Definition is_digit (c : ascii) : bool :=
  (48 <=? nat_of_ascii c)%nat && (nat_of_ascii c <=? 57)%nat.

Fixpoint all_digits (s : string) : bool :=
  match s with
  | EmptyString => true
  | String c rest => is_digit c && all_digits rest
  end.

(** The integer a string of decimal digits denotes. *)
Definition digits_value (s : string) : option Z :=
  option_map Z.of_uint (NilEmpty.uint_of_string s).

(** The sign [toFixed] prints: a minus for a negative Number that is not a
    zero. *)
Definition sign (x : Number) : string :=
  match x with
  | S754_finite true _ _ => "-"
  | _ => ""
  end.

End Fixed.

(** ** A sample session *)

Module Sample.
Import JS App.

Definition service (n : string) (up : bool) : Service :=
  {| name := n;
     online := up;
     online_24_hours := literal 99995 3;
     online_7_days := literal 9995 2;
     last_success := "2024-05-01T10:00:00.000Z";
     last_error := "2024-04-30T09:00:00.000Z";
     latency := of_Z 500;
     failures_24_hours := of_Z 0 |}.

(** Five entries, two of them monitored, in an order that is not the order
    of [targetServices]. *)
Definition feed : list Service :=
  [ service "Forums" true;
    service "Arma Reforger Workshop API" true;
    service "Store" false;
    service "Main Page" true;
    service "Wiki" true ].

(** A text standing for the feed's JSON. *)
Definition feed_text : string := "<services>".

(** A host whose JSON grammar knows the feed's text only. *)
Definition JSON_text (text : string) : option JSValue :=
  if String.eqb text feed_text then Some (JSArray (map toJS feed)) else None.

Definition ToString_value (v : JSValue) : string := "[object Object]".

Definition toLocaleString (d : Date) : string :=
  match d with
  | TimeValue _ => "5/1/2024, 10:00:00 AM"
  | InvalidDate => "Invalid Date"
  end.

Definition Date_parse (text : string) : Date :=
  if String.eqb text "2024-05-01T10:00:00.000Z" then TimeValue 1714557600000
  else InvalidDate.

Definition Number_toString (x : Number) : string := "NaN".

Definition relay_ok : Response :=
  {| status := 200;
     json := Normal (JSObject [("contents", JSString feed_text)]) |}.

Definition relay_500 : Response :=
  {| status := 500; json := Throw SyntaxError |}.

(** A state holding one service from an earlier cycle. *)
Definition earlier : AppState :=
  {| services := [toJS (service "Main Page" true)];
     loading := true;
     error := None;
     lastUpdate := TimeValue 1714557600000;
     workshopStatus := {| ws_online := true; ws_latency := 312 |} |}.

End Sample.

(** ** One render of [UpdatedTimestamp] *)

Module Stamp.
Import JS UpdatedTimestamp.

(** The dot and the label of one render.  The clock is read twice: for
    [isRecent] on line 54, reading [now_dot], and then by [formatTimeAgo],
    called from the markup on line 63, reading [now_label]. *)
Definition rendered (toLocaleString : Date -> string)
    (now_dot now_label : Z) (date : Date) : bool * string :=
  (isRecent now_dot date, formatTimeAgo toLocaleString now_label date).

End Stamp.

(** ** Which view the page takes, and the events that change it *)

Module Page.
Import JS App.

(** The three [return] statements of [App]: the spinner, the error card
    with its message, the cards. *)
Inductive Branch : Type :=
| SpinnerBranch
| ErrorBranch (message : string)
| CardsBranch.

(** Which [return] a render of [App] reaches:
    [if (loading) return ...; if (error) return ...; return ...], [null] and
    the empty string being the falsy values of [error].  The first two
    returns are made of constants and of the message.  The third evaluates a
    card for each stored entry, [service.online_24_hours.toFixed(2)] among
    others, which throws on an entry without these numbers: reaching the
    third return says nothing of how its evaluation ends. *)
Definition branch (st : AppState) : Branch :=
  if loading st then SpinnerBranch
  else
    match error st with
    | Some (String c rest) => ErrorBranch (String c rest)
    | _ => CardsBranch
    end.

(** What the Retry handler does before its [fetchData] call suspends. *)
Definition retryPressed : Eff unit :=
  (setLoading true ;; setError None)%eff.

(** What the refresh handler does before its [fetchData] call suspends. *)
Definition refreshPressed : Eff unit := setLoading true.

(** The events of a session after the mount: a [fetchData] call or a
    [checkWorkshopWebsite] call settles, a button is pressed. *)
Inductive Event : Type :=
| FetchSettled (fetched : Completion Response) (now : Z)
| ProbeSettled (startTime : Z) (fetched : Completion Response) (endTime : Z)
| RetryPressed
| RefreshPressed.

Section Host.

Variable JSON_text : string -> option JSValue.
Variable ToString_value : JSValue -> string.

Definition handle (ev : Event) (st : AppState) : AppState :=
  match ev with
  | FetchSettled fetched now =>
      settle (fetchData JSON_text ToString_value fetched now) st
  | ProbeSettled startTime fetched endTime =>
      settle (checkWorkshopWebsite startTime fetched endTime) st
  | RetryPressed => settle retryPressed st
  | RefreshPressed => settle refreshPressed st
  end.

(** The states a session can be in: events are taken in any order,
    whether or not the pressed button is on screen. *)
Inductive Reachable : AppState -> Prop :=
| reach_mount t : Reachable (initialState t)
| reach_event ev st : Reachable st -> Reachable (handle ev st).

End Host.

(** The [name] of an entry when it is an object whose own [name] is a
    string. *)
Definition entry_name (e : JSValue) : option string :=
  match e with
  | JSObject props =>
      match own_property "name" props with
      | JSString s => Some s
      | _ => None
      end
  | _ => None
  end.

(** An entry is an object named like one of [targets]. *)
Definition monitored_entry (targets : list ServiceInfo) (e : JSValue) : Prop :=
  exists s, entry_name e = Some s /\ In s (names targets).

(** A Number between 0 and 100. *)
Definition percentage (x : Number) : Prop :=
  match x with
  | S754_zero _ => True
  | S754_finite false m e => let '(p, q) := magnitude m e in p <= 100 * q
  | _ => False
  end.

(** For a latency of [ms] milliseconds: the hundredths of a second that
    [formatLatency] prints, when the quotient is a Number [toFixed] prints in
    fixed notation. *)
Definition latency_hundredths (ms : Z) : option Z :=
  match div (of_Z ms) (of_Z 1000) with
  | S754_zero _ => Some 0
  | S754_finite false m e =>
      let '(p, q) := magnitude m e in
      if 10 ^ 21 * q <=? p then None else Some (nearest_scaled (p, q) 2)
  | _ => None
  end.

(** The printed hundredths are within 5 ms of the latency, and are the
    ordinary rounding unless the latency ends in 5. *)
Definition latency_rounded (ms : Z) : bool :=
  match latency_hundredths ms with
  | Some n =>
      (Z.abs (10 * n - ms) <=? 5)
      && ((ms mod 10 =? 5) || (n =? (ms + 5) / 10))
  | None => false
  end.

End Page.

(** ** Feeds that are JSON but not a list of services *)

Module Scenario.
Import JS App.

(** A host that also knows the texts [[null]] and [{}]. *)
Definition JSON_text (text : string) : option JSValue :=
  if String.eqb text "[null]" then Some (JSArray [JSNull])
  else if String.eqb text "{}" then Some (JSObject [])
  else Sample.JSON_text text.

Definition relay_null_entry : Response :=
  {| status := 200;
     json := Normal (JSObject [("contents", JSString "[null]")]) |}.

Definition relay_object : Response :=
  {| status := 200;
     json := Normal (JSObject [("contents", JSString "{}")]) |}.

End Scenario.

(** ** The relay request *)

Module Relay.

(** A string is taken as its UTF-8 bytes. *)

(** The characters [encodeURIComponent] leaves as they are: letters,
    digits and [- _ . ! ~ * ' ( )]. *)
Definition unreserved (c : ascii) : bool :=
  let n := nat_of_ascii c in
  ((65 <=? n) && (n <=? 90) || (97 <=? n) && (n <=? 122)
   || (48 <=? n) && (n <=? 57)
   || (n =? 45) || (n =? 95) || (n =? 46) || (n =? 33) || (n =? 126)
   || (n =? 42) || (n =? 39) || (n =? 40) || (n =? 41))%nat.

Definition hex_digit (n : nat) : ascii :=
  if (n <? 10)%nat then ascii_of_nat (48 + n) else ascii_of_nat (55 + n).

(** [%XX], the two upper-case hexadecimal digits of a byte. *)
Definition percent_encode (c : ascii) : string :=
  let n := nat_of_ascii c in
  String "%" (String (hex_digit (n / 16)) (String (hex_digit (n mod 16)) "")).

Fixpoint encodeURIComponent (s : string) : string :=
  match s with
  | EmptyString => EmptyString
  | String c rest =>
      if unreserved c then String c (encodeURIComponent rest)
      else percent_encode c ++ encodeURIComponent rest
  end.

(** The address both requests are sent to, for a target address. *)
Definition relay_url (target : string) : string :=
  "https://api.allorigins.win/get?url=" ++ encodeURIComponent target.

(** ['https://bohemia.status.anrop.se/api/services'], the feed. *)
Definition status_endpoint : string := "https://bohemia.status.anrop.se/api/services".

(** ['https://reforger.armaplatform.com/workshop'], the probe's target. *)
Definition workshop_endpoint : string := "https://reforger.armaplatform.com/workshop".

(** The value of a hexadecimal digit. *)
Definition hex_value (c : ascii) : option nat :=
  let n := nat_of_ascii c in
  if ((48 <=? n) && (n <=? 57))%nat then Some (n - 48)%nat
  else if ((65 <=? n) && (n <=? 70))%nat then Some (n - 55)%nat
  else None.

(** Reading an encoded component back: [%XX] is a byte, anything else
    stands for itself; [None] on a truncated or malformed escape. *)
Fixpoint decode (s : string) : option string :=
  match s with
  | EmptyString => Some EmptyString
  | String c rest =>
      if Ascii.eqb c "%" then
        match rest with
        | String h (String l rest') =>
            match hex_value h, hex_value l, decode rest' with
            | Some a, Some b, Some r => Some (String (ascii_of_nat (16 * a + b)) r)
            | _, _, _ => None
            end
        | _ => None
        end
      else
        match decode rest with
        | Some r => Some (String c r)
        | None => None
        end
  end.

(** The characters of an encoded component. *)
Definition component_char (c : ascii) : bool :=
  unreserved c || Ascii.eqb c "%" || match hex_value c with Some _ => true | None => false end.

Fixpoint all_chars (p : ascii -> bool) (s : string) : bool :=
  match s with
  | EmptyString => true
  | String c rest => p c && all_chars p rest
  end.

End Relay.

(** * Properties *)

(** ** Relative time and freshness *)

Module TimeAgo.
Import JS UpdatedTimestamp.

Lemma ltb_Some (x k : Z) : ltb (Some x) k = (x <? k).
Proof. reflexivity. Qed.

Ltac by_cases :=
  repeat match goal with
  | |- context [?a <? ?b] => destruct (Z.ltb_spec a b); try lia
  | |- context [?a =? ?b] => destruct (Z.eqb_spec a b); try lia
  end.

Section Buckets.

Variable toLocaleString : Date -> string.

Lemma formatTimeAgo_of_seconds (now t : Z) :
  formatTimeAgo toLocaleString now (TimeValue t)
  = of_seconds toLocaleString (TimeValue t) ((now - t) / 1000).
Proof.
  unfold formatTimeAgo, of_seconds; cbn [getTime sub floor_div ltb strict_eqb ToString].
  generalize ((now - t) / 1000); intros s.
  destruct (s <? 5); [reflexivity|].
  destruct (s <? 60); [reflexivity|].
  destruct (s <? 3600); [destruct (s / 60 =? 1); reflexivity|].
  destruct (s <? 86400); [destruct (s / 3600 =? 1); reflexivity|].
  reflexivity.
Qed.

(** C5.  With [s] the whole seconds elapsed between the timestamp and the
    clock reading, [formatTimeAgo] answers "Just now" for [s < 5],
    "N seconds ago" for [5 <= s < 60], "N minute(s) ago" with
    [N = floor (s / 60)] for [60 <= s < 3600], "N hour(s) ago" with
    [N = floor (s / 3600)] for [3600 <= s < 86400], the unit being singular
    exactly when [N = 1], and the locale's rendering of the date otherwise;
    the six boundary values of the specification follow. *)
Theorem formatTimeAgo_buckets (now t : Z) :
  let s := (now - t) / 1000 in
  let shown := formatTimeAgo toLocaleString now (TimeValue t) in
  (s < 5 -> shown = "Just now") /\
  (5 <= s < 60 -> shown = string_of_Z s ++ " seconds ago") /\
  (60 <= s < 3600 ->
     shown = string_of_Z (s / 60)
             ++ (if s / 60 =? 1 then " minute ago" else " minutes ago")) /\
  (3600 <= s < 86400 ->
     shown = string_of_Z (s / 3600)
             ++ (if s / 3600 =? 1 then " hour ago" else " hours ago")) /\
  (86400 <= s -> shown = toLocaleString (TimeValue t)) /\
  (s = 4 -> shown = "Just now") /\
  (s = 5 -> shown = "5 seconds ago") /\
  (s = 59 -> shown = "59 seconds ago") /\
  (s = 60 -> shown = "1 minute ago") /\
  (s = 3599 -> shown = "59 minutes ago") /\
  (s = 3600 -> shown = "1 hour ago").
Proof.
  intros s shown. subst shown. rewrite formatTimeAgo_of_seconds. fold s.
  generalize s; clear s; intros s.
  repeat split; intros H; try (subst s; reflexivity);
    unfold of_seconds; by_cases; reflexivity.
Qed.

End Buckets.

(** C6.  [isRecent] holds exactly when fewer than 5000 milliseconds separate
    the timestamp from the clock reading: it is false at 5000 and beyond. *)
Theorem isRecent_iff (now t : Z) :
  (isRecent now (TimeValue t) = true <-> now - t < 5000) /\
  (isRecent now (TimeValue t) = false <-> 5000 <= now - t) /\
  isRecent (t + 5000) (TimeValue t) = false /\
  isRecent (t + 4999) (TimeValue t) = true.
Proof.
  unfold isRecent; cbn [getTime sub ltb].
  rewrite Z.ltb_lt, Z.ltb_ge.
  repeat split; try (intros H; exact H).
  - apply Z.ltb_ge; lia.
  - apply Z.ltb_lt; lia.
Qed.

End TimeAgo.

(** Three minutes and five seconds after the timestamp. *)
Lemma formatTimeAgo_buckets_witness :
  UpdatedTimestamp.formatTimeAgo (fun _ => "") 185000 (JS.TimeValue 0) = "3 minutes ago".
Proof.
  apply (proj1 (proj2 (proj2 (TimeAgo.formatTimeAgo_buckets (fun _ => "") 185000 0)))).
  vm_compute; split; [discriminate | reflexivity].
Defined.

(** A little under five seconds after the timestamp. *)
Lemma isRecent_iff_witness :
  UpdatedTimestamp.isRecent 6000 (JS.TimeValue 1001) = true.
Proof.
  apply (proj1 (TimeAgo.isRecent_iff 6000 1001)). reflexivity.
Defined.

(** ** The service filter *)

Module Filter.
Import JS App.







(** The filter neither throws nor adds entries on any array without [null]
    entries, whatever the shape of the entries. *)
Lemma filterServices_array targets (elems : list JSValue) :
  Forall (fun e => e <> JSNull /\ e <> JSUndefined) elems ->
  exists kept, filterServices targets (JSArray elems) = Normal kept /\
               Subsequence kept elems.
Proof.
  unfold filterServices, filter.
  induction 1 as [|e elems [Hnull Hundef] _ [kept [IH Hsub]]]; cbn [Array_filter].
  - exists []. split; [reflexivity | constructor].
  - rewrite IH.
    destruct e; try contradiction; cbn [get];
      match goal with
      | |- context [if ?b then _ else _] =>
          destruct b; eexists; (split; [reflexivity | now constructor])
      end.
Qed.

(** A [null] entry makes the callback, hence the filter, throw. *)
Lemma filterServices_null_entry targets (elems : list JSValue) :
  filterServices targets (JSArray (JSNull :: elems)) = Throw TypeError.
Proof. reflexivity. Qed.

(** Anything but an array has no [filter] method. *)
Lemma filterServices_not_array targets (data : JSValue) :
  (forall elems, data <> JSArray elems) ->
  filterServices targets data = Throw TypeError.
Proof.
  intros H. destruct data; try reflexivity. now contradiction (H elems).
Qed.

End Filter.

(** ** The refresh cycle *)

Module Refresh.
Import JS App.

Section Host.

Variable JSON_text : string -> option JSValue.
Variable ToString_value : JSValue -> string.

Notation fetchData := (App.fetchData JSON_text ToString_value).
Notation FetchFailure := (App.FetchFailure JSON_text ToString_value).
Notation FetchSuccess := (App.FetchSuccess JSON_text ToString_value).
Notation JSON_parse := (App.JSON_parse JSON_text ToString_value).
Notation refresh := (App.refresh JSON_text ToString_value).
Notation run := (App.run JSON_text ToString_value).

Ltac run_fetch :=
  unfold App.fetchData, settle, finally, try_catch, bind, complete, throw, ret,
    setServices, setLastUpdate, setError, setLoading.

(** The state a failed attempt leaves: the message and the cleared loading
    flag, everything else as it was. *)
Lemma fetchData_failure fetched now st :
  FetchFailure fetched ->
  settle (fetchData fetched now) st
  = {| services := services st;
       loading := false;
       error := Some fetch_error_message;
       lastUpdate := lastUpdate st;
       workshopStatus := workshopStatus st |}.
Proof.
  intros Hfail. run_fetch.
  destruct Hfail;
    repeat match goal with
    | H : _ = _ |- _ => rewrite H; clear H; cbn [negb fst snd]
    end; reflexivity.
Qed.

(** The state a successful attempt leaves. *)
Lemma fetchData_success fetched filtered now st :
  FetchSuccess fetched filtered ->
  settle (fetchData fetched now) st
  = {| services := filtered;
       loading := false;
       error := None;
       lastUpdate := TimeValue now;
       workshopStatus := workshopStatus st |}.
Proof.
  intros Hok. run_fetch.
  destruct Hok;
    repeat match goal with
    | H : _ = _ |- _ => rewrite H; clear H; cbn [negb fst snd]
    end; reflexivity.
Qed.

(** Every settled request is of one of the two kinds. *)
Lemma fetch_outcome fetched :
  FetchFailure fetched \/ exists filtered, FetchSuccess fetched filtered.
Proof.
  destruct fetched as [response | e]; [| left; constructor].
  destruct (ok response) eqn:Hok; [| left; now apply non_success_status].
  destruct (json response) as [result | e] eqn:Hjson;
    [| left; now apply body_not_json with e].
  destruct (get result "contents") as [contents | e] eqn:Hget;
    [| left; now apply envelope_not_object with result e].
  destruct (JSON_parse contents) as [data | e] eqn:Hparse;
    [| left; now apply contents_not_json with result contents e].
  destruct (filterServices targetServices data) as [filtered | e] eqn:Hfilter.
  - right. exists filtered. now apply fetch_success with result contents data.
  - left. now apply payload_not_filtered with result contents data e.
Qed.

Lemma fetch_outcome_exclusive fetched filtered :
  FetchFailure fetched -> FetchSuccess fetched filtered -> False.
Proof.
  intros Hfail Hok.
  pose proof (fetchData_failure fetched 0 (initialState 0) Hfail) as Hf.
  rewrite (fetchData_success _ _ 0 (initialState 0) Hok) in Hf.
  discriminate Hf.
Qed.

(** A success status, an envelope whose [contents] parses to an array
    without [null] entries: such a cycle succeeds, whatever the entries. *)
Lemma fetch_success_array response result contents elems :
  ok response = true ->
  json response = Normal result ->
  get result "contents" = Normal contents ->
  JSON_parse contents = Normal (JSArray elems) ->
  Forall (fun e => e <> JSNull /\ e <> JSUndefined) elems ->
  exists filtered, FetchSuccess (Normal response) filtered
                   /\ Subsequence filtered elems.
Proof.
  intros Hok Hjson Hget Hparse Hall.
  destruct (Filter.filterServices_array targetServices elems Hall)
    as (filtered & Hfilter & Hsub).
  exists filtered. split; [| assumption].
  now apply fetch_success with result contents (JSArray elems).
Qed.

(** C2.  Whatever makes the primary fetch fail (a rejected request, a
    non-success status, a body or a [contents] text that is not JSON, a
    missing [contents], a payload the filter cannot run over), the cycle
    stores the one fixed message and leaves the stored service list as it
    was. *)
Theorem fetchData_failure_message fetched now st :
  FetchFailure fetched ->
  error (settle (fetchData fetched now) st)
    = Some "Unable to fetch service status. Please try again later."
  /\ services (settle (fetchData fetched now) st) = services st.
Proof.
  intros Hfail. rewrite (fetchData_failure _ _ _ Hfail). split; reflexivity.
Qed.

(** A cycle whose fetch resolves with a success status and whose body
    and payload parse and filter without an exception ends with [error]
    null and [lastUpdate] at the cycle's clock reading (and with the
    filtered list stored). *)
Theorem fetchData_success_state fetched filtered now st :
  FetchSuccess fetched filtered ->
  error (settle (fetchData fetched now) st) = None
  /\ lastUpdate (settle (fetchData fetched now) st) = TimeValue now
  /\ services (settle (fetchData fetched now) st) = filtered.
Proof.
  intros Hok. rewrite (fetchData_success _ _ _ _ Hok). repeat split.
Qed.

(** C4, as the code has it.  When the fetch resolves with a success status,
    the body and its [contents] parse, and the parsed payload is an array
    without [null] entries, so that the filter runs to its end, the cycle
    ends with [error] null, [lastUpdate] at the cycle's clock reading, and
    the filtered array stored. *)
Theorem fetchData_success_on_array response result contents elems now st :
  ok response = true ->
  json response = Normal result ->
  get result "contents" = Normal contents ->
  JSON_parse contents = Normal (JSArray elems) ->
  Forall (fun e => e <> JSNull /\ e <> JSUndefined) elems ->
  let st' := settle (fetchData (Normal response) now) st in
  error st' = None
  /\ lastUpdate st' = TimeValue now
  /\ filterServices targetServices (JSArray elems) = Normal (services st').
Proof.
  intros Hok Hjson Hget Hparse Hall st'. subst st'.
  destruct (Filter.filterServices_array targetServices elems Hall)
    as (filtered & Hfilter & _).
  rewrite (fetchData_success (Normal response) filtered).
  - cbn [error lastUpdate services]. now repeat split.
  - now apply fetch_success with result contents (JSArray elems).
Qed.

(** C10.  Once an attempt has settled the loading flag is false, whether the
    attempt succeeded or failed and whichever handler started it. *)
Theorem fetchData_loading_false fetched now st :
  loading (settle (fetchData fetched now) st) = false
  /\ loading (settle (retryClick JSON_text ToString_value fetched now) st) = false
  /\ loading (settle (refreshClick JSON_text ToString_value fetched now) st) = false.
Proof.
  assert (H : forall st', loading (settle (fetchData fetched now) st') = false).
  { intros st'. destruct (fetch_outcome fetched) as [Hfail | [filtered Hok]].
    - now rewrite (fetchData_failure _ _ _ Hfail).
    - now rewrite (fetchData_success _ _ _ _ Hok). }
  split; [apply H|]. split.
  - unfold retryClick, settle, bind, setLoading, setError. cbn [fst snd]. apply H.
  - unfold refreshClick, settle, bind, setLoading. cbn [fst snd]. apply H.
Qed.

Lemma run_snoc cycles c st :
  run (cycles ++ [c])%list st = refresh c (run cycles st).
Proof. unfold App.run. now rewrite fold_left_app. Qed.

(** C9.  A failed attempt leaves [lastUpdate] as it was; hence after any
    number of cycles [lastUpdate] is the clock reading of the last cycle that
    succeeded, or the initial value when none did. *)
Theorem fetchData_failure_keeps_lastUpdate :
  (forall fetched now st,
      FetchFailure fetched ->
      lastUpdate (settle (fetchData fetched now) st) = lastUpdate st)
  /\
  (forall cycles st,
      (Forall (fun c => FetchFailure (fetched c)) cycles
       /\ lastUpdate (run cycles st) = lastUpdate st)
      \/
      (exists before c after filtered,
          cycles = (before ++ c :: after)%list
          /\ FetchSuccess (fetched c) filtered
          /\ Forall (fun c => FetchFailure (fetched c)) after
          /\ lastUpdate (run cycles st) = TimeValue (clock c))).
Proof.
  split.
  - intros fetched now st Hfail. now rewrite (fetchData_failure _ _ _ Hfail).
  - intros cycles st. induction cycles as [|c cycles IH] using rev_ind.
    + left. split; [constructor | reflexivity].
    + rewrite run_snoc. unfold App.refresh.
      destruct (fetch_outcome (fetched c)) as [Hfail | [filtered Hok]].
      * rewrite (fetchData_failure _ _ _ Hfail). cbn [lastUpdate].
        destruct IH as [[Hall Hsame] | (before & c' & after & out & Heq & Hok & Hall & Hlast)].
        -- left. split; [| assumption].
           apply Forall_app. split; [assumption | now constructor].
        -- right. exists before, c', (after ++ [c])%list, out.
           split; [rewrite Heq, <- app_assoc; reflexivity|].
           split; [assumption|].
           split; [| assumption].
           apply Forall_app. split; [assumption | now constructor].
      * rewrite (fetchData_success _ _ _ _ Hok). cbn [lastUpdate].
        right. exists cycles, c, [], filtered.
        split; [reflexivity|]. split; [assumption|]. split; [constructor | reflexivity].
Qed.

(** C3.  The probe stores [response.ok] and the difference of its two clock
    readings whenever the request resolves, whatever the status, and
    [{online: false, latency: 0}] whenever it rejects; it never touches the
    page-level error (nor the services, the loading flag or [lastUpdate]). *)
Theorem checkWorkshopWebsite_result :
  (forall startTime response endTime st,
      workshopStatus (settle (checkWorkshopWebsite startTime (Normal response) endTime) st)
      = {| ws_online := ok response; ws_latency := endTime - startTime |})
  /\ (forall response, ok response = true <-> 200 <= status response <= 299)
  /\ (forall startTime e endTime st,
      workshopStatus (settle (checkWorkshopWebsite startTime (Throw e) endTime) st)
      = {| ws_online := false; ws_latency := 0 |})
  /\ (forall startTime fetched endTime st,
      let st' := settle (checkWorkshopWebsite startTime fetched endTime) st in
      error st' = error st /\ services st' = services st
      /\ loading st' = loading st /\ lastUpdate st' = lastUpdate st).
Proof.
  split; [reflexivity|]. split.
  - intros response. unfold ok. rewrite andb_true_iff, !Z.leb_le. reflexivity.
  - split; [reflexivity|].
    intros startTime [response | e] endTime st; repeat split.
Qed.

End Host.

End Refresh.

(** ** Fixed-point formatting *)

Module FixedProps.
Import JS Fixed.

Lemma all_digits_uint d : all_digits (NilEmpty.string_of_uint d) = true.
Proof. induction d; cbn; auto. Qed.

Lemma all_digits_app a b :
  all_digits (a ++ b) = all_digits a && all_digits b.
Proof.
  induction a as [|c a IH]; [reflexivity|].
  cbn [append all_digits]. now rewrite IH, andb_assoc.
Qed.

(** The digits of a natural number: a non-empty numeral denoting it. *)
Lemma string_of_Z_nonneg n :
  0 <= n ->
  exists d, string_of_Z n = NilEmpty.string_of_uint d
            /\ d <> Decimal.Nil /\ Z.of_uint d = n.
Proof.
  intros Hn. unfold string_of_Z. destruct n as [|p|p]; [| |lia].
  - exists (Decimal.D0 Decimal.Nil). repeat split. discriminate.
  - exists (Pos.to_uint p). cbn [Z.to_int NilZero.string_of_int].
    assert (Hnil : Pos.to_uint p <> Decimal.Nil)
      by apply DecimalPos.Unsigned.to_uint_nonnil.
    repeat split; [| assumption |].
    + unfold NilZero.string_of_uint. destruct (Pos.to_uint p); congruence.
    + unfold Z.of_uint. now rewrite DecimalPos.Unsigned.of_to.
Qed.

Lemma zeros_numeral j d :
  zeros j ++ NilEmpty.string_of_uint d
  = NilEmpty.string_of_uint (Nat.iter j Decimal.D0 d).
Proof. induction j as [|j IH]; [reflexivity|]. cbn. now rewrite IH. Qed.

Lemma of_uint_zeros j d : Z.of_uint (Nat.iter j Decimal.D0 d) = Z.of_uint d.
Proof. induction j as [|j IH]; [reflexivity|]. cbn [Nat.iter]. exact IH. Qed.

Lemma length_numeral_pos d :
  d <> Decimal.Nil -> (1 <= String.length (NilEmpty.string_of_uint d))%nat.
Proof. destruct d; cbn; intros; try congruence; lia. Qed.

Lemma string_app_assoc a b c : (a ++ b) ++ c = a ++ (b ++ c).
Proof. induction a as [|x a IH]; cbn; congruence. Qed.

Lemma length_zeros j : String.length (zeros j) = j.
Proof. induction j; cbn; congruence. Qed.

Lemma length_app a b :
  String.length (a ++ b) = (String.length a + String.length b)%nat.
Proof. induction a as [|c a IH]; cbn; congruence. Qed.

(** Cutting a string at position [k]. *)
Lemma substring_cut s : forall k,
  (k <= String.length s)%nat ->
  substring 0 k s ++ substring k (String.length s - k) s = s
  /\ String.length (substring 0 k s) = k
  /\ String.length (substring k (String.length s - k) s)
     = (String.length s - k)%nat.
Proof.
  induction s as [|c s IH]; intros k Hk.
  - cbn in Hk. assert (k = 0%nat) by lia. subst. repeat split.
  - destruct k as [|k].
    + cbn [substring String.length Nat.sub append].
      destruct (IH 0%nat ltac:(lia)) as (H1 & H2 & H3).
      rewrite Nat.sub_0_r in H1, H3.
      destruct s; cbn in *; repeat split; congruence.
    + cbn in Hk. destruct (IH k ltac:(lia)) as (H1 & H2 & H3).
      cbn [substring String.length Nat.sub append].
      repeat split; congruence.
Qed.

(** The shape of what [fixed_digits] prints with two decimals. *)
Lemma fixed_digits_two n :
  0 <= n ->
  exists int frac,
    fixed_digits n 2 = int ++ "." ++ frac
    /\ int <> ""
    /\ all_digits int = true
    /\ String.length frac = 2%nat
    /\ all_digits frac = true
    /\ digits_value (int ++ frac) = Some n.
Proof.
  intros Hn. destruct (string_of_Z_nonneg n Hn) as (d & Hd & Hnil & Hval).
  unfold fixed_digits. cbn [Nat.eqb]. rewrite Hd.
  pose proof (length_numeral_pos d Hnil) as Hlen.
  set (k := String.length (NilEmpty.string_of_uint d)) in *.
  set (m := if (k <=? 2)%nat
            then zeros (2 + 1 - k) ++ NilEmpty.string_of_uint d
            else NilEmpty.string_of_uint d).
  assert (Hm : exists d', m = NilEmpty.string_of_uint d'
                          /\ Z.of_uint d' = n /\ (3 <= String.length m)%nat).
  { subst m. destruct (Nat.leb_spec k 2).
    - exists (Nat.iter (2 + 1 - k) Decimal.D0 d).
      rewrite zeros_numeral, of_uint_zeros. repeat split; [assumption|].
      rewrite <- zeros_numeral, length_app, length_zeros. fold k. lia.
    - exists d. repeat split; [assumption | fold k; lia]. }
  destruct Hm as (d' & Hm & Hval' & Hlen').
  destruct (substring_cut m (String.length m - 2) ltac:(lia)) as (Hcut & Ha & Hb).
  replace (String.length m - (String.length m - 2))%nat with 2%nat in Hcut, Hb by lia.
  exists (substring 0 (String.length m - 2) m), (substring (String.length m - 2) 2 m).
  assert (Hdig : all_digits m = true) by (rewrite Hm; apply all_digits_uint).
  rewrite <- Hcut, all_digits_app in Hdig. apply andb_true_iff in Hdig.
  repeat split; try tauto.
  - intros Hempty. rewrite Hempty in Ha. cbn in Ha. lia.
  - unfold digits_value. rewrite Hcut, Hm, NilEmpty.usu. cbn. now rewrite Hval'.
Qed.

Lemma magnitude_pos m e :
  let '(p, q) := magnitude m e in 0 < p /\ 0 < q.
Proof.
  unfold magnitude. destruct (Z.leb_spec 0 e).
  - split; [| lia]. apply Z.mul_pos_pos; [lia | now apply Z.pow_pos_nonneg].
  - split; [lia | apply Z.pow_pos_nonneg; lia].
Qed.

Lemma nearest_scaled_bounds p q :
  0 <= p -> 0 < q ->
  let n := nearest_scaled (p, q) 2 in
  0 <= n /\ 2 * n * q - q <= 2 * (100 * p) < 2 * n * q + q.
Proof.
  intros Hp Hq. cbn [nearest_scaled Z.of_nat]. change (10 ^ Z.pos _) with 100.
  pose proof (Z.div_mod (2 * p * 100 + q) (2 * q) ltac:(lia)) as Hdm.
  pose proof (Z.mod_pos_bound (2 * p * 100 + q) (2 * q) ltac:(lia)) as Hmod.
  split; [apply Z.div_pos; lia | nia].
Qed.

Section Percent.

Variable Number_toString : Number -> string.

Notation percentString := (App.percentString Number_toString).

(** C7.  For every Number of magnitude below 10^21, in particular every
    percentage, [percentString] prints an optional minus, at least one
    integer digit, a point, exactly two digits and "%", and the digits
    denote the integer nearest to a hundred times the magnitude (the larger
    one on a tie); 99.995 prints as "100.00%" and 0 as "0.00%". *)
Theorem percentString_two_decimals :
  (forall x, magnitude_below x (10 ^ 21) ->
     exists int frac n,
       percentString x = sign x ++ int ++ "." ++ frac ++ "%"
       /\ int <> ""
       /\ all_digits int = true
       /\ String.length frac = 2%nat
       /\ all_digits frac = true
       /\ digits_value (int ++ frac) = Some n
       /\ (let '(P, q) := hundredfold x in
           2 * n * q - q <= 2 * P < 2 * n * q + q))
  /\ percentString (literal 99995 3) = "100.00%"
  /\ percentString (of_Z 0) = "0.00%".
Proof.
  split; [| split; reflexivity].
  intros x Hx. unfold App.percentString.
  destruct x as [s | s | | s m e]; try contradiction.
  - destruct (fixed_digits_two 0 ltac:(lia)) as (int & frac & Heq & H).
    exists int, frac, 0. cbn [toFixed sign hundredfold]. rewrite Heq.
    split; [cbn [append]; now rewrite !string_app_assoc|]. intuition lia.
  - cbn [magnitude_below toFixed sign hundredfold] in *.
    pose proof (magnitude_pos m e) as Hpos.
    destruct (magnitude m e) as [p q]. destruct Hpos as [Hp Hq].
    destruct (Z.leb_spec (10 ^ 21 * q) p); [lia|].
    destruct (nearest_scaled_bounds p q ltac:(lia) Hq) as [Hn Hnear].
    destruct (fixed_digits_two _ Hn) as (int & frac & Heq & Hshape).
    exists int, frac, (nearest_scaled (p, q) 2). rewrite Heq.
    split; [now rewrite !string_app_assoc|].
    intuition lia.
Qed.

End Percent.

End FixedProps.

(** ** What the formatters depend on *)

Module Purity.
Import JS UpdatedTimestamp Fixed.

(** The clock-reading formatters are functions of the elapsed time only. *)
Lemma formatTimeAgo_elapsed toLocaleString now now' date :
  floor_div (sub (Some now) (getTime date)) 1000
  = floor_div (sub (Some now') (getTime date)) 1000 ->
  formatTimeAgo toLocaleString now date = formatTimeAgo toLocaleString now' date.
Proof. intros H. unfold formatTimeAgo. now rewrite H. Qed.

Lemma formatDate_elapsed Date_parse toLocaleString now now' text :
  floor_div (sub (Some now) (getTime (Date_parse text))) 1000
  = floor_div (sub (Some now') (getTime (Date_parse text))) 1000 ->
  App.formatDate Date_parse toLocaleString now text
  = App.formatDate Date_parse toLocaleString now' text.
Proof. intros H. unfold App.formatDate. now rewrite H. Qed.

(** Below 10^21 [toFixed] does not consult [Number::toString]. *)
Lemma toFixed_host_independent nts nts' x f :
  magnitude_below x (10 ^ 21) -> toFixed nts x f = toFixed nts' x f.
Proof.
  destruct x as [s | s | | s m e]; cbn [magnitude_below toFixed]; try tauto.
  destruct (magnitude m e) as [p q]. intros H.
  destruct (Z.leb_spec (10 ^ 21 * q) p); [lia | reflexivity].
Qed.

(** C8, as the code has it.  [formatTimeAgo], [formatDate] and [isRecent]
    read the clock besides their argument: two invocations on one argument
    agree whenever the whole seconds elapsed at the two readings are equal
    (for [isRecent]: whenever both readings are on the same side of 5000 ms),
    so in particular at one and the same reading.  [percentString] and
    [formatLatency] read no clock, and below 10^21 their output does not
    depend on the host either. *)
Theorem formatters_determined :
  (forall toLocaleString now now' date,
      floor_div (sub (Some now) (getTime date)) 1000
      = floor_div (sub (Some now') (getTime date)) 1000 ->
      formatTimeAgo toLocaleString now date = formatTimeAgo toLocaleString now' date)
  /\ (forall Date_parse toLocaleString now now' text,
      floor_div (sub (Some now) (getTime (Date_parse text))) 1000
      = floor_div (sub (Some now') (getTime (Date_parse text))) 1000 ->
      App.formatDate Date_parse toLocaleString now text
      = App.formatDate Date_parse toLocaleString now' text)
  /\ (forall now now' t,
      (now - t < 5000 <-> now' - t < 5000) ->
      isRecent now (TimeValue t) = isRecent now' (TimeValue t))
  /\ (forall now now', isRecent now InvalidDate = isRecent now' InvalidDate)
  /\ (forall nts nts' x,
      magnitude_below x (10 ^ 21) ->
      App.percentString nts x = App.percentString nts' x)
  /\ (forall nts nts' x,
      magnitude_below (div x (of_Z 1000)) (10 ^ 21) ->
      App.formatLatency nts x = App.formatLatency nts' x).
Proof.
  split; [exact formatTimeAgo_elapsed|].
  split; [exact formatDate_elapsed|].
  split.
  { intros now now' t H. unfold isRecent. cbn [getTime sub ltb].
    destruct (Z.ltb_spec (now - t) 5000), (Z.ltb_spec (now' - t) 5000);
      try reflexivity; lia. }
  split; [reflexivity|].
  split; intros nts nts' x H.
  - unfold App.percentString. now rewrite (toFixed_host_independent nts nts').
  - unfold App.formatLatency. now rewrite (toFixed_host_independent nts nts').
Qed.

End Purity.

(** C8, as stated, fails: on one and the same argument each of the three
    clock-reading formatters answers differently at two clock readings. *)
Lemma formatters_read_the_clock :
  (exists now now' date,
      UpdatedTimestamp.formatTimeAgo Sample.toLocaleString now date = "Just now"
      /\ UpdatedTimestamp.formatTimeAgo Sample.toLocaleString now' date = "5 seconds ago")
  /\ (exists now now' text,
      App.formatDate Sample.Date_parse Sample.toLocaleString now text = "Just now"
      /\ App.formatDate Sample.Date_parse Sample.toLocaleString now' text = "1m ago")
  /\ (exists now now' date,
      UpdatedTimestamp.isRecent now date = true
      /\ UpdatedTimestamp.isRecent now' date = false).
Proof.
  split; [| split].
  - exists 1714557604000, 1714557605000, (JS.TimeValue 1714557600000).
    split; reflexivity.
  - exists 1714557659000, 1714557660000, "2024-05-01T10:00:00.000Z".
    split; reflexivity.
  - exists 1714557604999, 1714557605000, (JS.TimeValue 1714557600000).
    split; reflexivity.
Qed.

(** Two readings within the same elapsed second. *)
Lemma formatters_determined_witness :
  UpdatedTimestamp.formatTimeAgo Sample.toLocaleString 1714557607000
    (JS.TimeValue 1714557600000)
  = UpdatedTimestamp.formatTimeAgo Sample.toLocaleString 1714557607999
    (JS.TimeValue 1714557600000).
Proof.
  apply (proj1 Purity.formatters_determined). reflexivity.
Defined.

(** ** The sample session *)

(** The scenario of the specification: five entries in the feed, three
    monitored names, two of them in the feed. *)
Example filter_sample_feed :
  App.filterServices App.targetServices (JS.JSArray (map App.toJS Sample.feed))
  = JS.Normal [ App.toJS (Sample.service "Arma Reforger Workshop API" true);
                App.toJS (Sample.service "Main Page" true) ].
Proof. reflexivity. Qed.

(** A relay answering 500: the message is stored, the earlier list kept. *)
Lemma fetchData_failure_message_witness :
  let st' := App.settle
               (App.fetchData Sample.JSON_text Sample.ToString_value
                  (JS.Normal Sample.relay_500) 1714557660000)
               Sample.earlier in
  App.error st' = Some "Unable to fetch service status. Please try again later."
  /\ App.services st' = App.services Sample.earlier.
Proof.
  apply Refresh.fetchData_failure_message.
  apply App.non_success_status. reflexivity.
Defined.

(** C4, as stated, fails: the relay answers 200, the body parses and its
    [contents], the text [{}], parses too, yet [data.filter] throws inside
    the [try] block: the message is stored and [lastUpdate] stays at the
    earlier cycle's reading. *)
Lemma parsed_feed_not_a_list :
  let fetched := JS.Normal Scenario.relay_object in
  let st' := App.settle
               (App.fetchData Scenario.JSON_text Sample.ToString_value
                  fetched 1714557660000)
               Sample.earlier in
  App.ok Scenario.relay_object = true
  /\ App.json Scenario.relay_object
     = JS.Normal (JS.JSObject [("contents", JS.JSString "{}")])
  /\ App.JSON_parse Scenario.JSON_text Sample.ToString_value (JS.JSString "{}")
     = JS.Normal (JS.JSObject [])
  /\ App.error st'
     = Some "Unable to fetch service status. Please try again later."
  /\ App.lastUpdate st' = JS.TimeValue 1714557600000.
Proof. repeat split. Qed.

(** A relay answering 200 with the feed. *)
Lemma fetchData_success_on_array_witness :
  let st' := App.settle
               (App.fetchData Sample.JSON_text Sample.ToString_value
                  (JS.Normal Sample.relay_ok) 1714557660000)
               Sample.earlier in
  App.error st' = None
  /\ App.lastUpdate st' = JS.TimeValue 1714557660000
  /\ App.filterServices App.targetServices
       (JS.JSArray (map App.toJS Sample.feed))
     = JS.Normal (App.services st').
Proof.
  apply (Refresh.fetchData_success_on_array
           Sample.JSON_text Sample.ToString_value Sample.relay_ok
           (JS.JSObject [("contents", JS.JSString Sample.feed_text)])
           (JS.JSString Sample.feed_text)); try reflexivity.
  repeat constructor; discriminate.
Defined.

(** A failed cycle after a successful one. *)
Lemma fetchData_failure_keeps_lastUpdate_witness :
  App.lastUpdate
    (App.settle
       (App.fetchData Sample.JSON_text Sample.ToString_value
          (JS.Normal Sample.relay_500) 1714557660000)
       Sample.earlier)
  = App.lastUpdate Sample.earlier.
Proof.
  apply (proj1 (Refresh.fetchData_failure_keeps_lastUpdate
                  Sample.JSON_text Sample.ToString_value)).
  apply App.non_success_status. reflexivity.
Defined.

(** The double that the literal 99.995 denotes, 0x1.8ffae147ae148p+6, lies
    above 99.995. *)
Example literal_99_995 :
  JS.literal 99995 3 = S754_finite false 7036522574045512 (-46)
  /\ 99995 * 2 ^ 46 < 7036522574045512 * 1000.
Proof. split; reflexivity. Qed.

Example percentString_99_95 :
  App.percentString Sample.Number_toString (JS.literal 9995 2) = "99.95%".
Proof. reflexivity. Qed.

Example formatLatency_samples :
  App.formatLatency Sample.Number_toString (JS.of_Z 500) = "0.50s"
  /\ App.formatLatency Sample.Number_toString (JS.of_Z 2000) = "2.00s"
  /\ App.formatLatency Sample.Number_toString (JS.of_Z 1234) = "1.23s".
Proof. repeat split. Qed.

(** The percentage of the sample service. *)
Lemma percentString_two_decimals_witness :
  exists int frac n,
    App.percentString Sample.Number_toString (JS.literal 99995 3)
    = Fixed.sign (JS.literal 99995 3) ++ int ++ "." ++ frac ++ "%"
    /\ int <> ""
    /\ Fixed.all_digits int = true
    /\ String.length frac = 2%nat
    /\ Fixed.all_digits frac = true
    /\ Fixed.digits_value (int ++ frac) = Some n
    /\ (let '(P, q) := Fixed.hundredfold (JS.literal 99995 3) in
        2 * n * q - q <= 2 * P < 2 * n * q + q).
Proof.
  apply (proj1 (FixedProps.percentString_two_decimals Sample.Number_toString)).
  vm_compute. reflexivity.
Defined.

(** * Further properties of the code *)

(** ** Timestamps of a service, invalid dates, the live indicator *)

Module CompactTime.
Import JS UpdatedTimestamp Fixed.

Lemma quotient_range s d lo hi :
  0 < d -> lo * d <= s < (hi + 1) * d -> lo <= s / d <= hi.
Proof.
  intros Hd [Hlo Hhi]. split.
  - apply Z.div_le_lower_bound; lia.
  - apply Z.lt_succ_r. apply Z.div_lt_upper_bound; lia.
Qed.

(** A natural number prints with a digit in front. *)
Lemma numeral_head n :
  0 <= n -> exists c rest, string_of_Z n = String c rest /\ is_digit c = true.
Proof.
  intros Hn. destruct (FixedProps.string_of_Z_nonneg n Hn) as (d & Hd & Hnil & _).
  pose proof (FixedProps.all_digits_uint d) as Hall. rewrite <- Hd in Hall.
  destruct (string_of_Z n) as [|c rest] eqn:Hs.
  - destruct d; cbn in Hd; congruence.
  - exists c, rest. split; [reflexivity|].
    cbn [all_digits] in Hall. now apply andb_true_iff in Hall.
Qed.

Lemma numeral_not_just_now n suffix :
  0 <= n -> string_of_Z n ++ suffix <> "Just now".
Proof.
  intros Hn Heq. destruct (numeral_head n Hn) as (c & rest & Hs & Hc).
  rewrite Hs in Heq. cbn [append] in Heq. injection Heq as Hc' _.
  subst c. discriminate Hc.
Qed.

Section Host.

Variable Date_parse : string -> Date.
Variable toLocaleString : Date -> string.

(** X1.  For a timestamp text that denotes a date, with [s] the whole
    seconds elapsed: [formatDate] answers "Just now" below a minute (also
    for a timestamp in the future), "Nm ago" with [N = floor (s / 60)]
    between 1 and 59 below an hour, "Nh ago" with [N = floor (s / 3600)]
    between 1 and 23 below a day, and the locale's rendering from a day on. *)
Theorem formatDate_buckets (now : Z) (text : string) (t : Z) :
  Date_parse text = TimeValue t ->
  let s := (now - t) / 1000 in
  let shown := App.formatDate Date_parse toLocaleString now text in
  (s < 60 -> shown = "Just now")
  /\ (60 <= s < 3600 ->
      shown = string_of_Z (s / 60) ++ "m ago" /\ 1 <= s / 60 <= 59)
  /\ (3600 <= s < 86400 ->
      shown = string_of_Z (s / 3600) ++ "h ago" /\ 1 <= s / 3600 <= 23)
  /\ (86400 <= s -> shown = toLocaleString (TimeValue t)).
Proof.
  intros Hdate s shown. subst shown. unfold App.formatDate. rewrite Hdate.
  cbn [getTime sub floor_div ltb ToString]. fold s.
  generalize s; clear s; intros s.
  split; [| split; [| split]]; intros H.
  - destruct (Z.ltb_spec s 60); [reflexivity | lia].
  - destruct (Z.ltb_spec s 60); [lia|].
    destruct (Z.ltb_spec s 3600); [| lia].
    split; [reflexivity | apply quotient_range; lia].
  - destruct (Z.ltb_spec s 60); [lia|].
    destruct (Z.ltb_spec s 3600); [lia|].
    destruct (Z.ltb_spec s 86400); [| lia].
    split; [reflexivity | apply quotient_range; lia].
  - destruct (Z.ltb_spec s 60); [lia|].
    destruct (Z.ltb_spec s 3600); [lia|].
    destruct (Z.ltb_spec s 86400); [lia | reflexivity].
Qed.

(** X2.  On an invalid date no bucket applies, whatever the clock reads:
    [formatTimeAgo] and [formatDate] hand the invalid date to the locale's
    rendering, and [isRecent] is false. *)
Theorem invalid_date_falls_through :
  (forall now, formatTimeAgo toLocaleString now InvalidDate
               = toLocaleString InvalidDate)
  /\ (forall now text,
         Date_parse text = InvalidDate ->
         App.formatDate Date_parse toLocaleString now text
         = toLocaleString InvalidDate)
  /\ (forall now, isRecent now InvalidDate = false).
Proof.
  split; [reflexivity|]. split; [| reflexivity].
  intros now text Hdate. unfold App.formatDate. now rewrite Hdate.
Qed.

(** At one and the same clock reading, less than a day after the
    timestamp, [isRecent] holds exactly when [formatTimeAgo] answers
    "Just now". *)
Lemma isRecent_iff_just_now (now t : Z) :
  (now - t) / 1000 < 86400 ->
  (isRecent now (TimeValue t) = true
   <-> formatTimeAgo toLocaleString now (TimeValue t) = "Just now").
Proof.
  intros Hday. rewrite TimeAgo.formatTimeAgo_of_seconds.
  unfold isRecent. cbn [getTime sub ltb]. rewrite Z.ltb_lt.
  assert (Hs : now - t < 5000 <-> (now - t) / 1000 < 5).
  { split; intros H.
    - apply Z.div_lt_upper_bound; lia.
    - destruct (Z.lt_ge_cases (now - t) 5000) as [|Hge]; [assumption|].
      apply (Z.div_le_mono _ _ 1000) in Hge; [| lia].
      change (5000 / 1000) with 5 in Hge. lia. }
  rewrite Hs. revert Hday. generalize ((now - t) / 1000). intros s Hday.
  unfold of_seconds. split; intros H.
  - apply Z.ltb_lt in H. now rewrite H.
  - destruct (Z.ltb_spec s 5); [assumption|]. exfalso.
    destruct (Z.ltb_spec s 60);
      [now apply (numeral_not_just_now s " seconds ago") in H; [| lia]|].
    destruct (Z.ltb_spec s 3600).
    { apply numeral_not_just_now in H; [assumption|].
      apply Z.div_pos; lia. }
    destruct (Z.ltb_spec s 86400); [| lia].
    apply numeral_not_just_now in H; [assumption|].
    apply Z.div_pos; lia.
Qed.

(** X3.  One render reads the clock for the dot and then again for the
    label.  When the clock has not gone back between the two readings and
    the label's reading is less than a day after the timestamp: the label
    reads "Just now" exactly when its reading is less than 5000 ms after
    the timestamp, the dot is on exactly when its own reading is, hence the
    dot is on whenever the label reads "Just now"; the dot is on beside
    another label exactly when the 5000 ms mark lies between the two
    readings. *)
Theorem just_now_implies_dot (now_dot now_label t : Z) :
  now_dot <= now_label ->
  (now_label - t) / 1000 < 86400 ->
  let shown := Stamp.rendered toLocaleString now_dot now_label (TimeValue t) in
  (snd shown = "Just now" <-> now_label - t < 5000)
  /\ (fst shown = true <-> now_dot - t < 5000)
  /\ (snd shown = "Just now" -> fst shown = true)
  /\ (fst shown = true /\ snd shown <> "Just now"
      <-> now_dot - t < 5000 <= now_label - t).
Proof.
  intros Hclock Hday shown. subst shown. cbn [Stamp.rendered fst snd].
  pose proof (isRecent_iff_just_now now_label t Hday) as Hlabel.
  assert (Hrecent : forall now, isRecent now (TimeValue t) = true <-> now - t < 5000).
  { intros now. unfold isRecent. cbn [getTime sub ltb]. apply Z.ltb_lt. }
  rewrite Hrecent in Hlabel. rewrite <- Hlabel, Hrecent.
  split; [reflexivity|]. split; [reflexivity|]. split; [lia|].
  split.
  - intros [Hdot Hnot]. split; [assumption|].
    destruct (Z.lt_ge_cases (now_label - t) 5000); [contradiction | assumption].
  - intros [Hdot Hge]. split; [assumption | lia].
Qed.

End Host.

End CompactTime.

(** Forty minutes, and five hours, after the sample timestamp. *)
Lemma formatDate_buckets_witness :
  App.formatDate Sample.Date_parse Sample.toLocaleString
    1714560000000 "2024-05-01T10:00:00.000Z" = "40m ago"
  /\ App.formatDate Sample.Date_parse Sample.toLocaleString
    1714575600000 "2024-05-01T10:00:00.000Z" = "5h ago".
Proof.
  split.
  - apply (proj1 (proj2 (CompactTime.formatDate_buckets
                           Sample.Date_parse Sample.toLocaleString
                           1714560000000 "2024-05-01T10:00:00.000Z"
                           1714557600000 eq_refl))).
    vm_compute; split; [discriminate | reflexivity].
  - apply (proj1 (proj2 (proj2 (CompactTime.formatDate_buckets
                           Sample.Date_parse Sample.toLocaleString
                           1714575600000 "2024-05-01T10:00:00.000Z"
                           1714557600000 eq_refl)))).
    vm_compute; split; [discriminate | reflexivity].
Defined.

(** An empty timestamp text under the sample host. *)
Lemma invalid_date_falls_through_witness :
  App.formatDate Sample.Date_parse Sample.toLocaleString 1714560000000 ""
  = "Invalid Date".
Proof.
  apply (proj1 (proj2 (CompactTime.invalid_date_falls_through
                         Sample.Date_parse Sample.toLocaleString))).
  reflexivity.
Defined.

(** The dot computed 4999 ms and the label 5000 ms after the timestamp. *)
Lemma just_now_implies_dot_witness :
  let shown := Stamp.rendered Sample.toLocaleString
                 1714557604999 1714557605000 (JS.TimeValue 1714557600000) in
  (snd shown = "Just now" <-> 1714557605000 - 1714557600000 < 5000)
  /\ (fst shown = true <-> 1714557604999 - 1714557600000 < 5000)
  /\ (snd shown = "Just now" -> fst shown = true)
  /\ (fst shown = true /\ snd shown <> "Just now"
      <-> 1714557604999 - 1714557600000 < 5000 <= 1714557605000 - 1714557600000).
Proof.
  apply CompactTime.just_now_implies_dot.
  - discriminate.
  - reflexivity.
Defined.

(** ** Latencies and percentages in their ranges *)

Module Measures.
Import JS Fixed Page.

(** A check made on every number below [N] holds of every such integer. *)
Lemma range_check (p : Z -> bool) (N : nat) :
  forallb (fun k => p (Z.of_nat k)) (seq 0 N) = true ->
  forall z, 0 <= z < Z.of_nat N -> p z = true.
Proof.
  intros H z Hz. rewrite forallb_forall in H.
  specialize (H (Z.to_nat z)). rewrite Z2Nat.id in H by lia.
  apply H. apply in_seq. lia.
Qed.

Lemma latency_rounded_below_10s :
  forallb (fun k => latency_rounded (Z.of_nat k)) (seq 0 (Z.to_nat 10000)) = true.
Proof. vm_compute. reflexivity. Qed.

Section Host.

Variable Number_toString : Number -> string.

(** X4.  A latency of a whole number of milliseconds below ten seconds is
    printed as seconds with exactly two decimals and an "s"; the printed
    hundredths are within 5 ms of the latency, and are its ordinary
    rounding unless the latency ends in 5 (where the binary quotient
    decides between the two neighbours). *)
Theorem formatLatency_within_5ms (ms : Z) :
  0 <= ms < 10000 ->
  exists int frac n,
    App.formatLatency Number_toString (of_Z ms) = int ++ "." ++ frac ++ "s"
    /\ int <> ""
    /\ all_digits int = true
    /\ String.length frac = 2%nat
    /\ all_digits frac = true
    /\ digits_value (int ++ frac) = Some n
    /\ Z.abs (10 * n - ms) <= 5
    /\ (ms mod 10 <> 5 -> n = (ms + 5) / 10).
Proof.
  intros Hms.
  pose proof (range_check latency_rounded _ latency_rounded_below_10s ms) as Hok.
  rewrite Z2Nat.id in Hok by lia. specialize (Hok Hms).
  unfold latency_rounded, latency_hundredths in Hok.
  unfold App.formatLatency.
  assert (Hshape : forall n,
    0 <= n ->
    (Z.abs (10 * n - ms) <=? 5) && ((ms mod 10 =? 5) || (n =? (ms + 5) / 10)) = true ->
    exists int frac n',
      fixed_digits n 2 ++ "s" = int ++ "." ++ frac ++ "s"
      /\ int <> "" /\ all_digits int = true /\ String.length frac = 2%nat
      /\ all_digits frac = true /\ digits_value (int ++ frac) = Some n'
      /\ Z.abs (10 * n' - ms) <= 5 /\ (ms mod 10 <> 5 -> n' = (ms + 5) / 10)).
  { intros n Hn Hb. apply andb_true_iff in Hb. destruct Hb as [Hb1 Hb2].
    apply Z.leb_le in Hb1. apply orb_true_iff in Hb2.
    destruct (FixedProps.fixed_digits_two n Hn) as (int & frac & Heq & Hrest).
    exists int, frac, n. rewrite Heq.
    split; [now rewrite !FixedProps.string_app_assoc|].
    repeat (split; [tauto|]).
    intros Hne. destruct Hb2 as [Hb2 | Hb2];
      [apply Z.eqb_eq in Hb2; contradiction | now apply Z.eqb_eq in Hb2]. }
  destruct (div (of_Z ms) (of_Z 1000)) as [s | s | | s m e];
    try discriminate Hok.
  - cbn [toFixed]. apply Hshape; [lia | assumption].
  - destruct s; [discriminate Hok|]. cbn [toFixed].
    pose proof (FixedProps.magnitude_pos m e) as Hpos.
    destruct (magnitude m e) as [p q]. destruct Hpos as [Hp Hq].
    destruct (10 ^ 21 * q <=? p); [discriminate Hok|].
    cbn [append]. apply Hshape; [| assumption].
    apply (FixedProps.nearest_scaled_bounds p q); [lia | assumption].
Qed.

(** X5.  A percentage, a Number between 0 and 100, is printed unsigned
    with two decimals between "0.00%" and "100.00%": the printed hundredths
    are between 0 and 10000. *)
Theorem percentString_within_range (x : Number) :
  percentage x ->
  exists int frac n,
    App.percentString Number_toString x = int ++ "." ++ frac ++ "%"
    /\ String.length frac = 2%nat
    /\ digits_value (int ++ frac) = Some n
    /\ 0 <= n <= 10000.
Proof.
  intros Hx. unfold App.percentString.
  assert (Hshape : forall n,
    0 <= n <= 10000 ->
    exists int frac n',
      fixed_digits n 2 ++ "%" = int ++ "." ++ frac ++ "%"
      /\ String.length frac = 2%nat
      /\ digits_value (int ++ frac) = Some n'
      /\ 0 <= n' <= 10000).
  { intros n Hn.
    destruct (FixedProps.fixed_digits_two n ltac:(lia)) as (int & frac & Heq & Hrest).
    exists int, frac, n.
    split; [rewrite Heq; now rewrite !FixedProps.string_app_assoc|].
    repeat (split; [tauto|]). lia. }
  destruct x as [s | s | | s m e]; try contradiction.
  - cbn [toFixed]. apply Hshape. lia.
  - destruct s; [contradiction|]. cbn [percentage toFixed] in *.
    pose proof (FixedProps.magnitude_pos m e) as Hpos.
    destruct (magnitude m e) as [p q]. destruct Hpos as [Hp Hq].
    destruct (Z.leb_spec (10 ^ 21 * q) p); [nia|].
    cbn [append]. apply Hshape.
    destruct (FixedProps.nearest_scaled_bounds p q ltac:(lia) Hq) as [Hn Hnear].
    split; [assumption | nia].
Qed.

End Host.

End Measures.

(** A latency of 1234 ms. *)
Lemma formatLatency_within_5ms_witness :
  exists int frac n,
    App.formatLatency Sample.Number_toString (JS.of_Z 1234)
    = int ++ "." ++ frac ++ "s"
    /\ int <> ""
    /\ Fixed.all_digits int = true
    /\ String.length frac = 2%nat
    /\ Fixed.all_digits frac = true
    /\ Fixed.digits_value (int ++ frac) = Some n
    /\ Z.abs (10 * n - 1234) <= 5
    /\ (1234 mod 10 <> 5 -> n = (1234 + 5) / 10).
Proof.
  apply Measures.formatLatency_within_5ms.
  split; [discriminate | reflexivity].
Defined.

(** The seven-day percentage of the sample service, 99.95. *)
Lemma percentString_within_range_witness :
  exists int frac n,
    App.percentString Sample.Number_toString (JS.literal 9995 2)
    = int ++ "." ++ frac ++ "%"
    /\ String.length frac = 2%nat
    /\ Fixed.digits_value (int ++ frac) = Some n
    /\ 0 <= n <= 10000.
Proof.
  apply Measures.percentString_within_range.
  vm_compute. discriminate.
Defined.

(** ** The filter on arbitrary payloads *)

Module Payload.
Import JS App Page.

Section Targets.

Variable targets : list ServiceInfo.

(** The callback of [filterServices]. *)
Notation callback :=
  (fun service : JSValue =>
     match get service "name" with
     | Normal service_name =>
         Normal (includes (map (fun s => info_name s) targets) service_name)
     | Throw e => Throw e
     end).

Lemma includes_In v :
  includes (names targets) v = true
  <-> exists s, v = JSString s /\ In s (names targets).
Proof.
  destruct v; cbn [includes];
    try (split; [discriminate | intros (s0 & Heq & _); discriminate]).
  rewrite existsb_exists. split.
  - intros (x & Hin & Heq). apply String.eqb_eq in Heq. subst. now exists x.
  - intros (s0 & Heq & Hin). injection Heq as <-.
    exists s. split; [assumption | apply String.eqb_refl].
Qed.

(** The callback throws on [null] and [undefined] only, and otherwise
    answers whether the entry is a monitored object. *)
Lemma callback_answer e :
  e <> JSNull -> e <> JSUndefined ->
  exists b, callback e = Normal b /\ (b = true <-> monitored_entry targets e).
Proof.
  intros Hnull Hundef. unfold monitored_entry. fold (names targets).
  destruct e; try contradiction; cbn [get entry_name];
    try (exists false; split; [reflexivity|];
         split; [discriminate | intros (s0 & Heq & _); discriminate]).
  eexists. split; [reflexivity|]. rewrite includes_In.
  split; intros (s & Heq & Hin); exists s.
  - now rewrite Heq.
  - destruct (own_property "name" props); try discriminate.
    injection Heq as ->. now split.
Qed.

Lemma callback_true e :
  callback e = Normal true -> monitored_entry targets e.
Proof.
  intros H. destruct e; cbn [get] in H; try discriminate;
    try (injection H as H; discriminate).
  injection H as H. fold (names targets) in H. apply includes_In in H.
  destruct H as (s & Heq & Hin). exists s. cbn [entry_name]. now rewrite Heq.
Qed.

(** X6.  On an array without [null] entries the filter does not throw,
    whatever the entries are: it returns a subsequence of the array that
    holds exactly the entries that are objects whose own [name] is a string
    among the monitored names.  Numbers, strings, arrays and objects without
    such a name are left out silently. *)
Theorem filterServices_entries (elems : list JSValue) :
  Forall (fun e => e <> JSNull /\ e <> JSUndefined) elems ->
  exists kept,
    filterServices targets (JSArray elems) = Normal kept
    /\ Subsequence kept elems
    /\ (forall e, In e kept <-> In e elems /\ monitored_entry targets e).
Proof.
  unfold filterServices, filter.
  induction 1 as [|e elems [Hnull Hundef] _ (kept & IH & Hsub & Hin)];
    cbn [Array_filter].
  - exists []. split; [reflexivity|]. split; [constructor|].
    intros e. cbn. tauto.
  - destruct (callback_answer e Hnull Hundef) as (b & Hcb & Hb).
    rewrite Hcb, IH. destruct b.
    + exists (e :: kept). split; [reflexivity|]. split; [now constructor|].
      intros x. cbn [In]. rewrite Hin. split.
      * intros [<- | [Hx Hm]]; [split; [now left | now apply Hb] | tauto].
      * tauto.
    + exists kept. split; [reflexivity|]. split; [now constructor|].
      intros x. cbn [In]. rewrite Hin. split; [tauto|].
      intros [[<- | Hx] Hm]; [| tauto].
      apply Hb in Hm. discriminate.
Qed.

(** Whatever the filter returns passes the filter. *)
Lemma Array_filter_kept elems : forall kept,
  Array_filter callback elems = Normal kept ->
  Forall (fun e => callback e = Normal true) kept.
Proof.
  induction elems as [|e elems IH]; intros kept H; cbn [Array_filter] in H.
  - injection H as <-. constructor.
  - destruct (callback e) as [b | ex] eqn:Hcb; [| discriminate].
    destruct (Array_filter callback elems) as [kept' | ex]; [| discriminate].
    injection H as <-. destruct b; [constructor|]; auto.
Qed.

Lemma Array_filter_fixed kept :
  Forall (fun e => callback e = Normal true) kept ->
  Array_filter callback kept = Normal kept.
Proof.
  induction 1 as [|e kept He _ IH]; [reflexivity|].
  cbn [Array_filter]. now rewrite He, IH.
Qed.

(** Every entry the filter returns is a monitored object. *)
Lemma filterServices_kept_monitored (data : JSValue) (kept : list JSValue) :
  filterServices targets data = Normal kept ->
  Forall (monitored_entry targets) kept.
Proof.
  unfold filterServices, filter. intros H.
  destruct data; try discriminate H.
  apply Array_filter_kept in H.
  eapply Forall_impl; [| exact H]. intros e He. now apply callback_true.
Qed.

(** X8.  Filtering is idempotent: the list the filter returned, filtered
    again, comes back unchanged, and each of its entries is a monitored
    object. *)
Theorem filterServices_idempotent (data : JSValue) (kept : list JSValue) :
  filterServices targets data = Normal kept ->
  filterServices targets (JSArray kept) = Normal kept
  /\ Forall (monitored_entry targets) kept.
Proof.
  intros H. split; [| now apply filterServices_kept_monitored with data].
  unfold filterServices, filter in *.
  destruct data; try discriminate H.
  apply Array_filter_kept in H. now apply Array_filter_fixed.
Qed.

(** A [null] entry anywhere makes the filter throw. *)
Lemma Array_filter_null elems :
  In JSNull elems -> exists e, Array_filter callback elems = Throw e.
Proof.
  induction elems as [|x elems IH]; intros Hin; [contradiction|].
  cbn [Array_filter]. destruct Hin as [-> | Hin].
  - now exists TypeError.
  - destruct (callback x) as [b | ex]; [| now exists ex].
    destruct (IH Hin) as (ex & ->). now exists ex.
Qed.

End Targets.

Section Host.

Variable JSON_text : string -> option JSValue.
Variable ToString_value : JSValue -> string.

(** X7.  A feed that is JSON but not an array, or an array with a [null]
    entry, is handled like a failed request: the fixed message is stored,
    loading ends, and the list and [lastUpdate] of the earlier cycle stay. *)
Theorem malformed_feed_fails response result contents data now st :
  ok response = true ->
  json response = Normal result ->
  get result "contents" = Normal contents ->
  JSON_parse JSON_text ToString_value contents = Normal data ->
  (forall elems, data <> JSArray elems)
  \/ (exists elems, data = JSArray elems /\ In JSNull elems) ->
  settle (fetchData JSON_text ToString_value (Normal response) now) st
  = {| services := services st;
       loading := false;
       error := Some fetch_error_message;
       lastUpdate := lastUpdate st;
       workshopStatus := workshopStatus st |}.
Proof.
  intros Hok Hjson Hget Hparse Hbad.
  apply Refresh.fetchData_failure.
  assert (Hthrow : exists e, filterServices targetServices data = Throw e).
  { destruct Hbad as [Hnot | (elems & -> & Hin)].
    - exists TypeError. now apply Filter.filterServices_not_array.
    - now apply Array_filter_null. }
  destruct Hthrow as (e & Hthrow).
  now apply payload_not_filtered with result contents data e.
Qed.

End Host.

End Payload.

(** An array of a number, a string, an object without a name and the
    sample service. *)
Lemma filterServices_entries_witness :
  exists kept,
    App.filterServices App.targetServices
      (JS.JSArray [ JS.JSNumber (JS.of_Z 7); JS.JSString "Main Page";
                    JS.JSObject [("title", JS.JSString "Main Page")];
                    App.toJS (Sample.service "Main Page" true) ])
    = JS.Normal kept
    /\ App.Subsequence kept
         [ JS.JSNumber (JS.of_Z 7); JS.JSString "Main Page";
           JS.JSObject [("title", JS.JSString "Main Page")];
           App.toJS (Sample.service "Main Page" true) ]
    /\ (forall e,
          In e kept
          <-> In e [ JS.JSNumber (JS.of_Z 7); JS.JSString "Main Page";
                     JS.JSObject [("title", JS.JSString "Main Page")];
                     App.toJS (Sample.service "Main Page" true) ]
              /\ Page.monitored_entry App.targetServices e).
Proof.
  apply Payload.filterServices_entries.
  repeat constructor; discriminate.
Defined.

(** The sample feed, filtered twice. *)
Lemma filterServices_idempotent_witness :
  App.filterServices App.targetServices
    (JS.JSArray [ App.toJS (Sample.service "Arma Reforger Workshop API" true);
                  App.toJS (Sample.service "Main Page" true) ])
  = JS.Normal [ App.toJS (Sample.service "Arma Reforger Workshop API" true);
                App.toJS (Sample.service "Main Page" true) ]
  /\ Forall (Page.monitored_entry App.targetServices)
       [ App.toJS (Sample.service "Arma Reforger Workshop API" true);
         App.toJS (Sample.service "Main Page" true) ].
Proof.
  apply (Payload.filterServices_idempotent App.targetServices
           (JS.JSArray (map App.toJS Sample.feed))).
  reflexivity.
Defined.

(** A feed that is the one-entry array [[null]], and a feed that is an
    object. *)
Lemma malformed_feed_fails_witness :
  App.settle
    (App.fetchData Scenario.JSON_text Sample.ToString_value
       (JS.Normal Scenario.relay_null_entry) 1714557660000) Sample.earlier
  = {| App.services := App.services Sample.earlier;
       App.loading := false;
       App.error := Some App.fetch_error_message;
       App.lastUpdate := App.lastUpdate Sample.earlier;
       App.workshopStatus := App.workshopStatus Sample.earlier |}
  /\ App.settle
    (App.fetchData Scenario.JSON_text Sample.ToString_value
       (JS.Normal Scenario.relay_object) 1714557660000) Sample.earlier
  = {| App.services := App.services Sample.earlier;
       App.loading := false;
       App.error := Some App.fetch_error_message;
       App.lastUpdate := App.lastUpdate Sample.earlier;
       App.workshopStatus := App.workshopStatus Sample.earlier |}.
Proof.
  split.
  - apply (Payload.malformed_feed_fails Scenario.JSON_text Sample.ToString_value
             Scenario.relay_null_entry
             (JS.JSObject [("contents", JS.JSString "[null]")])
             (JS.JSString "[null]") (JS.JSArray [JS.JSNull])); try reflexivity.
    right. exists [JS.JSNull]. split; [reflexivity | now left].
  - apply (Payload.malformed_feed_fails Scenario.JSON_text Sample.ToString_value
             Scenario.relay_object
             (JS.JSObject [("contents", JS.JSString "{}")])
             (JS.JSString "{}") (JS.JSObject [])); try reflexivity.
    left. intros elems. discriminate.
Defined.

(** ** Sessions *)

Module Session.
Import JS App Page.

Section Host.

Variable JSON_text : string -> option JSValue.
Variable ToString_value : JSValue -> string.

Notation fetchData := (App.fetchData JSON_text ToString_value).
Notation FetchFailure := (App.FetchFailure JSON_text ToString_value).
Notation FetchSuccess := (App.FetchSuccess JSON_text ToString_value).
Notation run := (App.run JSON_text ToString_value).
Notation Reachable := (Page.Reachable JSON_text ToString_value).

(** X9.  The feed request and the probe write different cells: in
    whichever order the two settle, the state is the same. *)
Theorem fetch_probe_commute fetched now startTime probed endTime st :
  settle (fetchData fetched now)
    (settle (checkWorkshopWebsite startTime probed endTime) st)
  = settle (checkWorkshopWebsite startTime probed endTime)
      (settle (fetchData fetched now) st).
Proof.
  destruct (Refresh.fetch_outcome JSON_text ToString_value fetched)
    as [Hfail | [filtered Hok]].
  - rewrite !(Refresh.fetchData_failure _ _ _ _ _ Hfail).
    destruct probed; reflexivity.
  - rewrite !(Refresh.fetchData_success _ _ _ _ _ _ Hok).
    destruct probed; reflexivity.
Qed.

(** X10.  After any cycles, the stored list and [lastUpdate] belong to one
    and the same cycle, the last that succeeded, and [error] is null exactly
    when no failed cycle came after it; when no cycle succeeded both are as
    at the start, and [error] holds the message as soon as one cycle ran. *)
Theorem run_last_success (cycles : list Cycle) (st : AppState) :
  (Forall (fun c => FetchFailure (fetched c)) cycles
   /\ services (run cycles st) = services st
   /\ lastUpdate (run cycles st) = lastUpdate st
   /\ (cycles <> [] -> error (run cycles st) = Some fetch_error_message))
  \/
  (exists before c after filtered,
      cycles = (before ++ c :: after)%list
      /\ FetchSuccess (fetched c) filtered
      /\ Forall (fun c => FetchFailure (fetched c)) after
      /\ services (run cycles st) = filtered
      /\ lastUpdate (run cycles st) = TimeValue (clock c)
      /\ error (run cycles st)
         = match after with
           | [] => None
           | _ => Some fetch_error_message
           end).
Proof.
  induction cycles as [|c cycles IH] using rev_ind.
  - left. repeat split; [constructor | congruence].
  - rewrite (Refresh.run_snoc JSON_text ToString_value). unfold App.refresh.
    destruct (Refresh.fetch_outcome JSON_text ToString_value (fetched c))
      as [Hfail | [filtered Hok]].
    + rewrite (Refresh.fetchData_failure _ _ _ _ _ Hfail).
      cbn [services lastUpdate error].
      destruct IH as [(Hall & Hs & Hl & _)
                     | (before & c' & after & out & Heq & Hok & Hall & Hs & Hl & _)].
      * left. split; [apply Forall_app; split; [assumption | now constructor]|].
        repeat split; assumption.
      * right. exists before, c', (after ++ [c])%list, out.
        split; [rewrite Heq, <- app_assoc; reflexivity|].
        split; [assumption|].
        split; [apply Forall_app; split; [assumption | now constructor]|].
        split; [assumption|]. split; [assumption|].
        destruct after; reflexivity.
    + rewrite (Refresh.fetchData_success _ _ _ _ _ _ Hok).
      cbn [services lastUpdate error].
      right. exists cycles, c, [], filtered.
      split; [reflexivity|]. split; [assumption|]. split; [constructor|].
      repeat split.
Qed.

(** X11.  In every state a session reaches, whatever events came in
    whatever order: [error] is null or the fixed message, [lastUpdate] is a
    valid date, and every stored entry is an object named like one of the
    three monitored services. *)
Theorem reachable_invariant (st : AppState) :
  Reachable st ->
  (error st = None \/ error st = Some fetch_error_message)
  /\ (exists t, lastUpdate st = TimeValue t)
  /\ Forall (monitored_entry targetServices) (services st).
Proof.
  induction 1 as [t | ev st Hreach (Herr & Hdate & Hall)].
  - split; [now left|]. split; [now exists t | constructor].
  - destruct ev as [fetched now | startTime probed endTime | |];
      cbn [handle].
    + destruct (Refresh.fetch_outcome JSON_text ToString_value fetched)
        as [Hfail | [filtered Hok]].
      * rewrite (Refresh.fetchData_failure _ _ _ _ _ Hfail).
        cbn [error lastUpdate services]. split; [now right | now split].
      * rewrite (Refresh.fetchData_success _ _ _ _ _ _ Hok).
        cbn [error lastUpdate services]. split; [now left|].
        split; [now exists now|].
        destruct Hok as [response result contents data out _ _ _ _ Hfilter].
        now apply (Payload.filterServices_kept_monitored targetServices data).
    + destruct probed; cbn; now repeat split.
    + cbn. split; [now left | now split].
    + cbn. now repeat split.
Qed.

(** X12.  Which view the page takes.  Once a fetch has settled it is never
    the spinner: after a failure it is the error card with the fixed
    message, so that none of the retained services is rendered; after a
    success it is the third return, the cards.  Pressing Retry or refresh
    brings the spinner up, and a probe that settles while loading leaves the
    spinner. *)
Theorem branch_after_events fetched now st :
  (FetchFailure fetched ->
     branch (settle (fetchData fetched now) st) = ErrorBranch fetch_error_message)
  /\ (forall filtered,
        FetchSuccess fetched filtered ->
        branch (settle (fetchData fetched now) st) = CardsBranch)
  /\ branch (settle retryPressed st) = SpinnerBranch
  /\ branch (settle refreshPressed st) = SpinnerBranch
  /\ (forall startTime probed endTime,
        loading st = true ->
        branch (settle (checkWorkshopWebsite startTime probed endTime) st)
        = SpinnerBranch).
Proof.
  split; [| split; [| split; [| split]]].
  - intros Hfail. now rewrite (Refresh.fetchData_failure _ _ _ _ _ Hfail).
  - intros filtered Hok. now rewrite (Refresh.fetchData_success _ _ _ _ _ _ Hok).
  - reflexivity.
  - reflexivity.
  - intros startTime probed endTime Hload.
    destruct probed; unfold branch; cbn; now rewrite Hload.
Qed.

(** X13.  A refresh started by either button ends in the state a refresh
    started by the timer ends in; and a refresh that succeeds leaves nothing
    of the earlier list, error, loading flag or [lastUpdate], so of two
    overlapping refreshes the one that settles last decides when it
    succeeds. *)
Theorem refresh_overwrites fetched now st :
  settle (retryClick JSON_text ToString_value fetched now) st
    = settle (fetchData fetched now) st
  /\ settle (refreshClick JSON_text ToString_value fetched now) st
    = settle (fetchData fetched now) st
  /\ (forall filtered earlier before,
        FetchSuccess fetched filtered ->
        settle (fetchData fetched now) (settle (fetchData earlier before) st)
        = settle (fetchData fetched now) st).
Proof.
  destruct (Refresh.fetch_outcome JSON_text ToString_value fetched)
    as [Hfail | [filtered Hok]].
  - split; [| split].
    + change (settle (fetchData fetched now)
                {| services := services st; loading := true; error := None;
                   lastUpdate := lastUpdate st;
                   workshopStatus := workshopStatus st |}
              = settle (fetchData fetched now) st).
      now rewrite !(Refresh.fetchData_failure _ _ _ _ _ Hfail).
    + change (settle (fetchData fetched now)
                {| services := services st; loading := true; error := error st;
                   lastUpdate := lastUpdate st;
                   workshopStatus := workshopStatus st |}
              = settle (fetchData fetched now) st).
      now rewrite !(Refresh.fetchData_failure _ _ _ _ _ Hfail).
    + intros out earlier before Hok. exfalso.
      exact (Refresh.fetch_outcome_exclusive _ _ _ _ Hfail Hok).
  - split; [| split].
    + change (settle (fetchData fetched now)
                {| services := services st; loading := true; error := None;
                   lastUpdate := lastUpdate st;
                   workshopStatus := workshopStatus st |}
              = settle (fetchData fetched now) st).
      now rewrite !(Refresh.fetchData_success _ _ _ _ _ _ Hok).
    + change (settle (fetchData fetched now)
                {| services := services st; loading := true; error := error st;
                   lastUpdate := lastUpdate st;
                   workshopStatus := workshopStatus st |}
              = settle (fetchData fetched now) st).
      now rewrite !(Refresh.fetchData_success _ _ _ _ _ _ Hok).
    + intros out earlier before _.
      rewrite !(Refresh.fetchData_success _ _ _ _ _ _ Hok).
      destruct (Refresh.fetch_outcome JSON_text ToString_value earlier)
        as [Hfail' | [out' Hok']].
      * now rewrite (Refresh.fetchData_failure _ _ _ _ _ Hfail').
      * now rewrite (Refresh.fetchData_success _ _ _ _ _ _ Hok').
Qed.

End Host.

End Session.

(** The state after the mount, a successful refresh, a probe and a failed
    refresh. *)
Lemma reachable_invariant_witness :
  let st := Page.handle Sample.JSON_text Sample.ToString_value
              (Page.FetchSettled (JS.Normal Sample.relay_500) 1714557720000)
              (Page.handle Sample.JSON_text Sample.ToString_value
                 (Page.ProbeSettled 1714557660000 (JS.Normal Sample.relay_ok)
                    1714557660450)
                 (Page.handle Sample.JSON_text Sample.ToString_value
                    (Page.FetchSettled (JS.Normal Sample.relay_ok) 1714557660000)
                    (App.initialState 1714557600000))) in
  (App.error st = None \/ App.error st = Some App.fetch_error_message)
  /\ (exists t, App.lastUpdate st = JS.TimeValue t)
  /\ Forall (Page.monitored_entry App.targetServices) (App.services st).
Proof.
  apply (Session.reachable_invariant Sample.JSON_text Sample.ToString_value).
  repeat apply Page.reach_event. apply Page.reach_mount.
Defined.

(** A relay answering 500 after an earlier successful cycle. *)
Lemma branch_after_events_witness :
  Page.branch
    (App.settle
       (App.fetchData Sample.JSON_text Sample.ToString_value
          (JS.Normal Sample.relay_500) 1714557660000) Sample.earlier)
  = Page.ErrorBranch "Unable to fetch service status. Please try again later.".
Proof.
  apply (proj1 (Session.branch_after_events Sample.JSON_text Sample.ToString_value
                  (JS.Normal Sample.relay_500) 1714557660000 Sample.earlier)).
  apply App.non_success_status. reflexivity.
Defined.

(** ** The address sent to the relay *)

Module RelayProps.
Import Relay.

Lemma string_app_inv_head p a b : p ++ a = p ++ b -> a = b.
Proof.
  induction p as [|c p IH]; cbn [append]; intros H; [assumption|].
  injection H as H. now apply IH.
Qed.

Lemma unreserved_not_percent c : unreserved c = true -> Ascii.eqb c "%" = false.
Proof.
  destruct c as [[] [] [] [] [] [] [] []]; vm_compute; congruence.
Qed.

(** The two digits of [%XX] read back as the byte. *)
Lemma percent_encode_decoded c :
  exists h l a b,
    percent_encode c = String "%" (String h (String l ""))
    /\ hex_value h = Some a /\ hex_value l = Some b
    /\ ascii_of_nat (16 * a + b) = c.
Proof.
  destruct c as [[] [] [] [] [] [] [] []];
    do 4 eexists; repeat split; vm_compute; reflexivity.
Qed.

Lemma percent_encode_chars c :
  all_chars component_char (percent_encode c) = true.
Proof.
  destruct c as [[] [] [] [] [] [] [] []]; vm_compute; reflexivity.
Qed.

Lemma all_chars_app p a b :
  all_chars p (a ++ b) = all_chars p a && all_chars p b.
Proof.
  induction a as [|c a IH]; [reflexivity|].
  cbn [append all_chars]. now rewrite IH, andb_assoc.
Qed.

Lemma decode_encode target : decode (encodeURIComponent target) = Some target.
Proof.
  induction target as [|c rest IH]; [reflexivity|].
  cbn [encodeURIComponent]. destruct (unreserved c) eqn:Hc.
  - cbn [decode]. now rewrite (unreserved_not_percent c Hc), IH.
  - destruct (percent_encode_decoded c) as (h & l & a & b & -> & Hh & Hl & Hbyte).
    cbn [append decode]. change (Ascii.eqb "%" "%") with true. cbv iota.
    now rewrite Hh, Hl, IH, Hbyte.
Qed.

(** X14.  The target address can be read back from the relay address:
    decoding the encoded component gives the target, so two targets never
    share a relay address. *)
Theorem relay_url_reads_back :
  (forall target,
      exists component,
        relay_url target = "https://api.allorigins.win/get?url=" ++ component
        /\ decode component = Some target)
  /\ (forall target target', relay_url target = relay_url target' -> target = target').
Proof.
  split.
  - intros target. exists (encodeURIComponent target).
    split; [reflexivity | apply decode_encode].
  - intros target target' H. unfold relay_url in H.
    apply string_app_inv_head in H.
    pose proof (decode_encode target) as Hd. rewrite H, decode_encode in Hd.
    now injection Hd.
Qed.

(** X15.  The encoded target is made of letters, digits, the marks
    [- _ . ! ~ * ' ( )] and [%XX] escapes only, so it holds none of the
    characters that delimit a query: no [&], [=], [?], [#], [/], [:], [+]
    and no space. *)
Theorem encodeURIComponent_chars (target : string) :
  all_chars component_char (encodeURIComponent target) = true
  /\ forallb (fun c => negb (component_char c))
       ["&"; "="; "?"; "#"; "/"; ":"; "+"; " "]%char = true.
Proof.
  split; [| reflexivity].
  induction target as [|c rest IH]; [reflexivity|].
  cbn [encodeURIComponent]. destruct (unreserved c) eqn:Hc.
  - cbn [all_chars]. rewrite IH. unfold component_char. now rewrite Hc.
  - now rewrite all_chars_app, percent_encode_chars, IH.
Qed.

End RelayProps.

(** The two addresses the component requests. *)
Example relay_url_constants :
  Relay.relay_url Relay.status_endpoint
  = "https://api.allorigins.win/get?url=https%3A%2F%2Fbohemia.status.anrop.se%2Fapi%2Fservices"
  /\ Relay.relay_url Relay.workshop_endpoint
  = "https://api.allorigins.win/get?url=https%3A%2F%2Freforger.armaplatform.com%2Fworkshop".
Proof. split; reflexivity. Qed.
